(** * coderabbitai.cpp: pattern store, workbench and session pipeline

    A shallow embedding of [src/.engine/coderabbitai.cpp].  The C code works
    on three kinds of heap objects ([CodePattern], [CodeMemory],
    [CodeWorkbench]) through pointers and prints to standard output.  The
    embedding threads a [world] (the three typed heaps and a log of calls and
    output) through every function, and every function returns an [outcome]:
    either [Done] with its result, or [Undefined] when the C code would
    dereference a null or dangling pointer, write outside an array, overflow
    a fixed [char] buffer or overflow an [int].

    Conventions.
    - A [string] stands for the contents of a NUL-terminated C string (the
      characters before the terminator); a [char *] is an [option string],
      [None] being the null pointer.  Every string field of the source is an
      exclusive [strdup] copy, so strings are stored by value.  A string
      argument is passed by its contents; where the storage of the argument
      matters ([update_code_suggestion] handed the workbench's own
      suggestion), a second definition makes it explicit.
    - [malloc], [strdup] and [realloc] are taken to succeed (the source never
      checks their result).
    - [int] is 32 bits wide; signed overflow is undefined. *)

From Stdlib Require Import ZArith String Ascii PrimFloat.
From stdpp Require Import gmap strings list fin_maps.

Local Open Scope Z_scope.

(** ** Machine-level data *)

Definition INT_MAX : Z := 2147483647.

Definition CODE_PATTERN_LIMIT : Z := 10000.
Definition CODE_COMPLEXITY_FACTOR : float := 1%float.

Definition loc := positive.

Inductive ptr : Type :=
| NULL
| Addr (l : loc).

#[global] Instance ptr_eq_dec : EqDecision ptr.
Proof. solve_decision. Defined.

(** The ways in which a C function of this file can leave defined
    behaviour. *)
Inductive ub : Type :=
| NullDereference
| DanglingPointer
| OutOfBounds
| Uninitialized
| BufferOverflow
| SignedOverflow.

Inductive outcome (A : Type) : Type :=
| Done (a : A)
| Undefined (why : ub).
Arguments Done {A} a.
Arguments Undefined {A} why.

(** ** The structs *)

Record CodePattern : Type := mkCodePattern {
  code_snippet : option string;
  language : option string;
  complexity : float
}.

(** One slot of the array of pattern pointers: [None] is a slot that was
    allocated but never written. *)
Abbreviation slot := (option ptr).

(** [patterns] is [None] for a null array pointer and [Some b] for an
    allocated block of [length b] slots. *)
Record CodeMemory : Type := mkCodeMemory {
  patterns : option (list slot);
  count : Z;
  capacity : Z
}.

Record CodeWorkbench : Type := mkCodeWorkbench {
  code_request : option string;
  current_code : option string;
  suggested_code : option string
}.

(** ** The log

    What a run leaves behind besides the heap: the text written by [printf]
    ([Stdout]), the release of strings and of the workbench ([FreeText],
    [FreeWorkbench]), and, as a ghost record used to state which function
    was called how often and in which order, one [Call...] event at the
    entry of each workbench and pipeline function. *)

Inductive event : Type :=
| Stdout (text : string)
| CallInit (request : string)
| CallUpdateSuggestion (workbench : ptr) (new_suggestion : string)
| CallCommitChange (workbench : ptr) (change : string)
| CallProcess (workbench memory : ptr)
| CallGenerate (workbench memory : ptr)
| CallRefine (workbench memory : ptr)
| CallOrchestrate (workbench memory : ptr)
| CallLedgerCommit (code description : string)
| FreeText (text : option string)
| FreeWorkbench (workbench : ptr).

Record world : Type := mkWorld {
  pattern_objs : gmap loc CodePattern;
  memory_objs : gmap loc CodeMemory;
  workbench_objs : gmap loc CodeWorkbench;
  trace : list event
}.

Definition set_pattern_objs (f : gmap loc CodePattern -> gmap loc CodePattern)
    (w : world) : world :=
  mkWorld (f (pattern_objs w)) (memory_objs w) (workbench_objs w) (trace w).

Definition set_memory_objs (f : gmap loc CodeMemory -> gmap loc CodeMemory)
    (w : world) : world :=
  mkWorld (pattern_objs w) (f (memory_objs w)) (workbench_objs w) (trace w).

Definition set_workbench_objs (f : gmap loc CodeWorkbench -> gmap loc CodeWorkbench)
    (w : world) : world :=
  mkWorld (pattern_objs w) (memory_objs w) (f (workbench_objs w)) (trace w).

Definition set_trace (f : list event -> list event) (w : world) : world :=
  mkWorld (pattern_objs w) (memory_objs w) (workbench_objs w) (f (trace w)).

(** ** A state-and-undefined-behaviour monad *)

Definition M (A : Type) : Type := world -> outcome (A * world).

Definition ret {A : Type} (a : A) : M A := fun w => Done (a, w).

Definition bind {A B : Type} (c : M A) (k : A -> M B) : M B :=
  fun w =>
    match c w with
    | Done (a, w') => k a w'
    | Undefined u => Undefined u
    end.

Definition undefined {A : Type} (u : ub) : M A := fun _ => Undefined u.

Definition lift {A : Type} (o : outcome A) : M A :=
  fun w =>
    match o with
    | Done a => Done (a, w)
    | Undefined u => Undefined u
    end.

Notation "'let*' x ':=' c 'in' k" := (bind c (fun x => k))
  (at level 10, x name, c at level 100, k at level 200, only parsing).
Notation "c ;; k" := (bind c (fun _ => k))
  (at level 100, k at level 200, right associativity, only parsing).

Definition emit (e : event) : M unit :=
  fun w => Done (tt, set_trace (fun t => t ++ [e]) w).

(** Straight-line code: a list of statements run first to last. *)
Definition run (stmts : list (M unit)) : M unit :=
  foldr (fun s k => s ;; k) (ret tt) stmts.

(** *** Pointer access *)

Definition deref {T : Type} (heap : world -> gmap loc T) (p : ptr) : M T :=
  fun w =>
    match p with
    | NULL => Undefined NullDereference
    | Addr l =>
        match heap w !! l with
        | Some v => Done (v, w)
        | None => Undefined DanglingPointer
        end
    end.

Definition load_pattern : ptr -> M CodePattern := deref pattern_objs.
Definition load_memory : ptr -> M CodeMemory := deref memory_objs.
Definition load_workbench : ptr -> M CodeWorkbench := deref workbench_objs.

Definition store_pattern (p : ptr) (v : CodePattern) : M unit :=
  load_pattern p ;;
  match p with
  | NULL => undefined NullDereference
  | Addr l => fun w => Done (tt, set_pattern_objs (insert l v) w)
  end.

Definition store_memory (p : ptr) (v : CodeMemory) : M unit :=
  load_memory p ;;
  match p with
  | NULL => undefined NullDereference
  | Addr l => fun w => Done (tt, set_memory_objs (insert l v) w)
  end.

Definition store_workbench (p : ptr) (v : CodeWorkbench) : M unit :=
  load_workbench p ;;
  match p with
  | NULL => undefined NullDereference
  | Addr l => fun w => Done (tt, set_workbench_objs (insert l v) w)
  end.

(** [malloc] of one struct: a location not in use in its heap. *)
Definition malloc_pattern (v : CodePattern) : M ptr :=
  fun w =>
    let l := fresh (dom (pattern_objs w)) in
    Done (Addr l, set_pattern_objs (insert l v) w).

Definition malloc_memory (v : CodeMemory) : M ptr :=
  fun w =>
    let l := fresh (dom (memory_objs w)) in
    Done (Addr l, set_memory_objs (insert l v) w).

Definition malloc_workbench (v : CodeWorkbench) : M ptr :=
  fun w =>
    let l := fresh (dom (workbench_objs w)) in
    Done (Addr l, set_workbench_objs (insert l v) w).

(** [free] of a struct: [free(NULL)] does nothing, freeing a pointer that
    is not live is undefined. *)
Definition free_obj {T : Type} (heap : world -> gmap loc T)
    (del : loc -> world -> world) (p : ptr) : M unit :=
  fun w =>
    match p with
    | NULL => Done (tt, w)
    | Addr l =>
        match heap w !! l with
        | Some _ => Done (tt, del l w)
        | None => Undefined DanglingPointer
        end
    end.

(** [free] of a string field.  Strings are stored by value, so this only
    records the release; the field keeps its (now dangling) value until the
    struct itself is released. *)
Definition free_text (s : option string) : M unit := emit (FreeText s).

(** *** [int] arithmetic *)

Definition int_mul (a b : Z) : M Z :=
  if decide (- INT_MAX - 1 <= a * b <= INT_MAX) then ret (a * b)
  else undefined SignedOverflow.

Definition int_add (a b : Z) : M Z :=
  if decide (- INT_MAX - 1 <= a + b <= INT_MAX) then ret (a + b)
  else undefined SignedOverflow.

(** *** Text *)

Definition nl : string := String "010"%char EmptyString.

(** [strcat(dst, src)] where [dst] is a [char] array of [size] bytes that
    currently holds [dst]: the result needs room for both texts and the
    terminator. *)
Definition strcat_buf (size : nat) (dst src : string) : M string :=
  if decide (String.length dst + String.length src + 1 <= size)%nat
  then ret (dst +:+ src)
  else undefined BufferOverflow.

(** [printf] with one or more [%s]: a null argument is undefined. *)
Definition arg_s (s : option string) : M string :=
  match s with
  | Some t => ret t
  | None => undefined NullDereference
  end.

Definition printf (text : string) : M unit := emit (Stdout text).

(** ** Code pattern management *)

Definition create_code_pattern (snippet language : string) (complexity : float)
    : M ptr :=
  malloc_pattern (mkCodePattern (Some snippet) (Some language) complexity).

(** [realloc] of the pattern array to [n] pointer-sized slots: a block
    that keeps the old contents as far as they fit; the new slots are
    unwritten. *)
Definition realloc (old : option (list slot)) (n : Z) : option (list slot) :=
  Some (resize (Z.to_nat n) None (default [] old)).

(** [patterns[i] = p]. *)
Definition write_slot (buf : option (list slot)) (i : Z) (p : ptr)
    : outcome (option (list slot)) :=
  match buf with
  | None => Undefined NullDereference
  | Some b =>
      if decide (0 <= i < Z.of_nat (length b))
      then Done (Some (<[Z.to_nat i := Some p]> b))
      else Undefined OutOfBounds
  end.

(** [patterns[i]] read as a pointer value. *)
Definition read_slot (buf : option (list slot)) (i : Z) : outcome ptr :=
  match buf with
  | None => Undefined NullDereference
  | Some b =>
      if decide (0 <= i)
      then match b !! Z.to_nat i with
           | Some (Some p) => Done p
           | Some None => Undefined Uninitialized
           | None => Undefined OutOfBounds
           end
      else Undefined OutOfBounds
  end.

Definition add_pattern_to_memory (memory pattern : ptr) : M unit :=
  let* m := load_memory memory in
  let* m :=
    (if decide (count m = capacity m) then
       let* cap := int_mul (capacity m) 2 in
       ret (mkCodeMemory (realloc (patterns m) cap) (count m) cap)
     else ret m) in
  let* buf := lift (write_slot (patterns m) (count m) pattern) in
  let* cnt := int_add (count m) 1 in
  store_memory memory (mkCodeMemory buf cnt (capacity m)).

Definition analyze_code_complexity (pattern : ptr) : M unit :=
  let* p := load_pattern pattern in
  store_pattern pattern
    (mkCodePattern (code_snippet p) (language p)
       (complexity p + CODE_COMPLEXITY_FACTOR)%float).

Definition free_code_pattern (pattern : ptr) : M unit :=
  let* p := load_pattern pattern in
  free_text (code_snippet p) ;;
  free_text (language p) ;;
  free_obj pattern_objs (fun l => set_pattern_objs (delete l)) pattern.

Definition free_code_memory (memory : ptr) : M unit :=
  let* m := load_memory memory in
  run (map (fun i : nat =>
              let* m := load_memory memory in
              let* p := lift (read_slot (patterns m) (Z.of_nat i)) in
              free_code_pattern p)
           (seq 0 (Z.to_nat (count m)))) ;;
  free_obj memory_objs (fun l => set_memory_objs (delete l)) memory.

(** ** Workbench functions *)

Definition init_code_workbench (request : string) : M ptr :=
  emit (CallInit request) ;;
  malloc_workbench (mkCodeWorkbench (Some request) None None).

(** [new_suggestion] is the content of a string held outside the
    workbench's [suggested_code] buffer, as at both calls in the source
    (lines 277 and 299 pass a local array).  The call that passes the
    workbench's own [suggested_code] is [update_code_suggestion_from] below. *)
Definition update_code_suggestion (workbench : ptr) (new_suggestion : string)
    : M unit :=
  emit (CallUpdateSuggestion workbench new_suggestion) ;;
  let* wb := load_workbench workbench in
  (match suggested_code wb with
   | Some old => free_text (Some old)
   | None => ret tt
   end) ;;
  store_workbench workbench
    (mkCodeWorkbench (code_request wb) (current_code wb) (Some new_suggestion)).



Definition commit_code_change (workbench : ptr) (change : string) : M unit :=
  emit (CallCommitChange workbench change) ;;
  let* wb := load_workbench workbench in
  match current_code wb with
  | Some cur =>
      let new_code := cur +:+ change in
      free_text (Some cur) ;;
      store_workbench workbench
        (mkCodeWorkbench (code_request wb) (Some new_code) (suggested_code wb))
  | None =>
      store_workbench workbench
        (mkCodeWorkbench (code_request wb) (Some change) (suggested_code wb))
  end.

(** ** AI processing *)

Definition suggestion_header : string :=
  "Here's a suggestion based on your request:" +:+ nl.
Definition suggestion_body : string := "/* Your generated code here */".
Definition refine_marker : string := "Refined code suggestion:" +:+ nl.

Definition generate_code_suggestion (workbench memory : ptr) : M unit :=
  emit (CallGenerate workbench memory) ;;
  let* suggestion := strcat_buf 1024 suggestion_header suggestion_body in
  update_code_suggestion workbench suggestion.

Definition process_code_request (workbench memory : ptr) : M unit :=
  emit (CallProcess workbench memory) ;;
  generate_code_suggestion workbench memory.

Definition refine_code_suggestion (workbench memory : ptr) : M unit :=
  emit (CallRefine workbench memory) ;;
  let* wb := load_workbench workbench in
  let* src := arg_s (suggested_code wb) in
  let* refined := strcat_buf 1024 refine_marker src in
  update_code_suggestion workbench refined.

(** ** Blockchain integration (a local mock) *)

Definition commit_code_to_blockchain (code : option string) (description : string)
    : M unit :=
  let* c := arg_s code in
  emit (CallLedgerCommit c description) ;;
  printf ("Committing code to blockchain: " +:+ description +:+ " - " +:+ c +:+ nl).

(** The text [snprintf] leaves in a buffer of [size >= 1] bytes.  With
    [size = 0] the C call writes nothing and the buffer keeps what it held,
    which this function, returning the text written, does not describe. *)
Definition verify_code_from_blockchain (size : nat) : string :=
  substring 0 (size - 1) "Code verified from blockchain".

(** ** Helper functions *)

Definition tokenize_code (code : string) : list string * Z :=
  (["token_example"], 1).

Definition evaluate_code_style (code : string) : float := 0.75%float.

(** ** Main orchestration *)

Definition orchestrate_body (workbench memory : ptr) : list (M unit) :=
  [ (let* wb := load_workbench workbench in
     let* r := arg_s (code_request wb) in
     printf ("Starting coding session for request: " +:+ r +:+ nl));
    process_code_request workbench memory;
    (let* wb := load_workbench workbench in
     let* s := arg_s (suggested_code wb) in
     printf ("Initial suggestion:" +:+ nl +:+ s +:+ nl));
    refine_code_suggestion workbench memory;
    (let* wb := load_workbench workbench in
     let* s := arg_s (suggested_code wb) in
     printf ("Refined suggestion:" +:+ nl +:+ s +:+ nl));
    (let* wb := load_workbench workbench in
     commit_code_to_blockchain (suggested_code wb) "Final Suggestion");
    printf ("Coding session completed." +:+ nl);
    (let* wb := load_workbench workbench in free_text (code_request wb));
    (let* wb := load_workbench workbench in free_text (current_code wb));
    (let* wb := load_workbench workbench in free_text (suggested_code wb));
    (emit (FreeWorkbench workbench) ;;
     free_obj workbench_objs (fun l => set_workbench_objs (delete l)) workbench)
  ].

Definition orchestrate_coding_session (workbench memory : ptr) : M unit :=
  emit (CallOrchestrate workbench memory) ;;
  run (orchestrate_body workbench memory).

(** One session as [main] runs it (lines 449-450), for any request text and
    any store pointer. *)
Definition session (request : string) (memory : ptr) : M ptr :=
  let* workbench := init_code_workbench request in
  orchestrate_coding_session workbench memory ;;
  ret workbench.

Definition main : M Z :=
  let* memory := malloc_memory (mkCodeMemory None 0 10) in
  let* workbench := init_code_workbench "Create a function to sort an array" in
  orchestrate_coding_session workbench memory ;;
  free_code_memory memory ;;
  ret 0.

Definition empty_world : world := mkWorld ∅ ∅ ∅ [].

(** ** Vocabulary of the properties *)

Definition generated_text : string := suggestion_header +:+ suggestion_body.
Definition refined_text : string := refine_marker +:+ generated_text.

(** The events of [orchestrate_coding_session] on a workbench that holds
    request [r], in order. *)
Definition orchestrate_events (l : loc) (memory : ptr) (r : string)
    (wb : CodeWorkbench) : list event :=
  [CallOrchestrate (Addr l) memory;
   Stdout ("Starting coding session for request: " +:+ r +:+ nl);
   CallProcess (Addr l) memory;
   CallGenerate (Addr l) memory;
   CallUpdateSuggestion (Addr l) generated_text] ++
  match suggested_code wb with
  | Some old => [FreeText (Some old)]
  | None => []
  end ++
  [Stdout ("Initial suggestion:" +:+ nl +:+ generated_text +:+ nl);
   CallRefine (Addr l) memory;
   CallUpdateSuggestion (Addr l) refined_text;
   FreeText (Some generated_text);
   Stdout ("Refined suggestion:" +:+ nl +:+ refined_text +:+ nl);
   CallLedgerCommit refined_text "Final Suggestion";
   Stdout ("Committing code to blockchain: " +:+ "Final Suggestion" +:+ " - "
           +:+ refined_text +:+ nl);
   Stdout ("Coding session completed." +:+ nl);
   FreeText (Some r);
   FreeText (current_code wb);
   FreeText (Some refined_text);
   FreeWorkbench (Addr l)].

Definition preserves (R : world -> world -> Prop) {A : Type} (c : M A) : Prop :=
  forall w a w', c w = Done (a, w') -> R w w'.

(** The store: every [CodeMemory] and every [CodePattern] object. *)
Definition same_store (w w' : world) : Prop :=
  memory_objs w' = memory_objs w /\ pattern_objs w' = pattern_objs w.

(** Workbench [l] stays live with the same [current_code]. *)
Definition keeps_current_code (l : loc) (w w' : world) : Prop :=
  forall wb, workbench_objs w !! l = Some wb ->
    exists wb', workbench_objs w' !! l = Some wb' /\
                current_code wb' = current_code wb.

(** The state reached after the first [k] statements of the body of
    [orchestrate_coding_session], in a session started as [session] does. *)
Definition session_upto (k : nat) (request : string) (memory : ptr) : M ptr :=
  let* workbench := init_code_workbench request in
  emit (CallOrchestrate workbench memory) ;;
  run (take k (orchestrate_body workbench memory)) ;;
  ret workbench.

Definition is_commit_change (e : event) : bool :=
  match e with CallCommitChange _ _ => true | _ => false end.

Definition is_ledger_commit (e : event) : bool :=
  match e with CallLedgerCommit _ _ => true | _ => false end.

(** The five pipeline steps as they show in the log: creation, generation,
    refinement, ledger commit, release of the workbench. *)
Definition is_pipeline_step (e : event) : bool :=
  match e with
  | CallInit _ | CallGenerate _ _ | CallRefine _ _ | CallLedgerCommit _ _
  | FreeWorkbench _ => true
  | _ => false
  end.

(** *** The store *)

Fixpoint collect {A : Type} (l : list (outcome A)) : outcome (list A) :=
  match l with
  | [] => Done []
  | Done a :: rest =>
      match collect rest with
      | Done r => Done (a :: r)
      | Undefined u => Undefined u
      end
  | Undefined u :: _ => Undefined u
  end.

(** Iterating over the store the way [free_code_memory] does: [patterns[i]]
    for [i] from [0] to [count - 1]. *)
Definition stored_patterns (m : CodeMemory) : outcome (list ptr) :=
  collect (map (fun i : nat => read_slot (patterns m) (Z.of_nat i))
               (seq 0 (Z.to_nat (count m)))).

(** A sequence of [add_pattern_to_memory] calls on one store. *)
Definition adds (memory : ptr) (ps : list ptr) : M unit :=
  run (map (add_pattern_to_memory memory) ps).

(** What [add_pattern_to_memory] asks of its caller ("Caller is responsible
    for ensuring memory is properly allocated before calling"): the pattern
    array is an allocated block with room for [capacity] pointers, and
    [count] and [capacity] are consistent [int] values. *)
Definition allocated (m : CodeMemory) : Prop :=
  exists b, patterns m = Some b /\
            0 <= count m <= capacity m /\
            capacity m <= Z.of_nat (length b) /\
            capacity m <= INT_MAX.

(** The two ingestion operations. *)
Inductive store_op : Type :=
| Add (pattern : ptr)
| AnalyzeComplexity (pattern : ptr).

Definition apply_op (memory : ptr) (o : store_op) : M unit :=
  match o with
  | Add pattern => add_pattern_to_memory memory pattern
  | AnalyzeComplexity pattern => analyze_code_complexity pattern
  end.

Definition is_add (o : store_op) : bool :=
  match o with Add _ => true | AnalyzeComplexity _ => false end.

(** A sequence of ingestion operations on one store. *)
Definition apply_ops (memory : ptr) (ops : list store_op) : M unit :=
  run (map (apply_op memory) ops).

(** An operation whose pattern argument, if it is dereferenced, points to a
    live [CodePattern]. *)
Definition op_ready (w : world) (o : store_op) : Prop :=
  match o with
  | Add _ => True
  | AnalyzeComplexity pattern =>
      exists pl, pattern = Addr pl /\ is_Some (pattern_objs w !! pl)
  end.

(** The store invariant of the specification: capacity is at least count. *)
Definition invariant (m : CodeMemory) : Prop := count m <= capacity m.

(** A sequence of [commit_code_change] calls on one workbench. *)
Definition commits (workbench : ptr) (changes : list string) : M unit :=
  run (map (commit_code_change workbench) changes).

(** [n] successive [refine_code_suggestion] calls. *)
Definition refines (n : nat) (workbench memory : ptr) : M unit :=
  run (replicate n (refine_code_suggestion workbench memory)).

(** *** The claims that fail, as the specification words them *)

(** Growth law: any empty store of capacity [C] has capacity [2 * C] after
    [C + 1] calls of Add. *)
Definition growth_law (C : Z) : Prop :=
  forall w l m (ps : list ptr),
    memory_objs w !! l = Some m ->
    count m = 0 -> capacity m = C ->
    Z.of_nat (length ps) = C + 1 ->
    exists w' m',
      adds (Addr l) ps w = Done (tt, w') /\
      memory_objs w' !! l = Some m' /\
      capacity m' = 2 * C.

(** Invariant preservation: an operation applied to a store that satisfies
    the invariant yields a store that satisfies it. *)
Definition invariant_preserved_by (o : store_op) : Prop :=
  forall w l m,
    memory_objs w !! l = Some m -> invariant m ->
    exists w' m',
      apply_op (Addr l) o w = Done (tt, w') /\
      memory_objs w' !! l = Some m' /\
      invariant m'.


(** The text Generate leaves in a fresh workbench created for [request]. *)
Definition generated_for (request : string) : option string :=
  match (let* workbench := init_code_workbench request in
         generate_code_suggestion workbench NULL ;;
         load_workbench workbench) empty_world with
  | Done (wb, _) => suggested_code wb
  | Undefined _ => None
  end.

(** A text derived from the request varies with it. *)
Definition depends_on_request (gen : string -> option string) : Prop :=
  exists r1 r2, gen r1 <> gen r2.

(** A call that is turned down: its outcome is defined and no object has
    changed. *)
Definition rejected (c : M unit) (w : world) : Prop :=
  exists w', c w = Done (tt, w') /\
             workbench_objs w' = workbench_objs w /\
             same_store w w'.

(** *** Further vocabulary *)


(** The marker prepended [n] times. *)
Fixpoint nest (n : nat) (s : string) : string :=
  match n with
  | O => s
  | S k => refine_marker +:+ nest k s
  end.

(** All texts of a list, one after the other. *)
Definition concat_all (texts : list string) : string :=
  foldr String.append EmptyString texts.

Definition is_free_text (e : event) : bool :=
  match e with FreeText _ => true | _ => false end.

(** A pointer to a live [CodePattern]. *)
Definition live_pattern (w : world) (p : ptr) : Prop :=
  exists l, p = Addr l /\ is_Some (pattern_objs w !! l).

(** [free_code_pattern] on each pointer of a list, first to last. *)
Definition free_patterns (ps : list ptr) : M unit :=
  run (map free_code_pattern ps).

(** Ingestion as a caller does it: create each pattern and add it to the
    store. *)
Definition ingest (memory : ptr) (specs : list (string * string * float))
    : M unit :=
  run (map (fun spec : string * string * float =>
              let* pattern :=
                create_code_pattern (fst (fst spec)) (snd (fst spec)) (snd spec) in
              add_pattern_to_memory memory pattern)
           specs).

(** The message [verify_code_from_blockchain] prints into its buffer. *)
Definition verify_message : string := "Code verified from blockchain".

(** * Properties *)

(** ** Running the monad *)

Lemma bind_done {A B : Type} (c : M A) (k : A -> M B) w a w' :
  c w = Done (a, w') -> bind c k w = k a w'.
Proof. intros H. unfold bind. by rewrite H. Qed.

Lemma bind_undefined {A B : Type} (c : M A) (k : A -> M B) w u :
  c w = Undefined u -> bind c k w = Undefined u.
Proof. intros H. unfold bind. by rewrite H. Qed.

Lemma bind_inv {A B : Type} (c : M A) (k : A -> M B) w b w2 :
  bind c k w = Done (b, w2) ->
  exists a w1, c w = Done (a, w1) /\ k a w1 = Done (b, w2).
Proof.
  unfold bind. destruct (c w) as [[a w1]|u]; [|discriminate].
  intros H. by exists a, w1.
Qed.

Lemma run_nil w : run [] w = Done (tt, w).
Proof. reflexivity. Qed.

Lemma run_cons s stmts w :
  run (s :: stmts) w = bind s (fun _ => run stmts) w.
Proof. reflexivity. Qed.

Lemma run_app s1 s2 w :
  run (s1 ++ s2) w = bind (run s1) (fun _ => run s2) w.
Proof.
  revert w. induction s1 as [|s s1 IH]; intros w.
  - reflexivity.
  - rewrite <- app_comm_cons, run_cons. unfold bind.
    change (run (s :: s1) w) with (bind s (fun _ => run s1) w). unfold bind.
    destruct (s w) as [[[] w1]|u]; [|reflexivity].
    rewrite IH. reflexivity.
Qed.

(** A world is determined by its four components. *)
Lemma world_eta w :
  mkWorld (pattern_objs w) (memory_objs w) (workbench_objs w) (trace w) = w.
Proof. by destruct w. Qed.

(** ** Workbench functions on a live workbench *)

Section Workbench.
Variables (w : world) (l : loc) (wb : CodeWorkbench).
Hypothesis Hlive : workbench_objs w !! l = Some wb.

Lemma load_workbench_live : load_workbench (Addr l) w = Done (wb, w).
Proof. unfold load_workbench, deref. by rewrite Hlive. Qed.

Lemma store_workbench_live v :
    store_workbench (Addr l) v w = Done (tt, set_workbench_objs (insert l v) w).
Proof.
    unfold store_workbench. by rewrite (bind_done _ _ _ _ _ load_workbench_live).
Qed.

Lemma update_code_suggestion_live s :
    update_code_suggestion (Addr l) s w =
    Done (tt, mkWorld (pattern_objs w) (memory_objs w)
                (<[l := mkCodeWorkbench (code_request wb) (current_code wb) (Some s)]>
                   (workbench_objs w))
                (trace w ++ CallUpdateSuggestion (Addr l) s ::
                   match suggested_code wb with
                   | Some old => [FreeText (Some old)]
                   | None => []
                   end)).
Proof.
    unfold update_code_suggestion, emit, load_workbench, deref, store_workbench,
      load_workbench, deref, free_text, emit, bind, ret. cbn. rewrite Hlive.
    destruct (suggested_code wb); cbn; rewrite Hlive; cbn;
      unfold set_workbench_objs; cbn; by rewrite <- ?app_assoc.
Qed.

Lemma commit_code_change_live change :
    commit_code_change (Addr l) change w =
    Done (tt, mkWorld (pattern_objs w) (memory_objs w)
                (<[l := mkCodeWorkbench (code_request wb)
                          (Some (default EmptyString (current_code wb) +:+ change))
                          (suggested_code wb)]>
                   (workbench_objs w))
                (trace w ++ CallCommitChange (Addr l) change ::
                   match current_code wb with
                   | Some cur => [FreeText (Some cur)]
                   | None => []
                   end)).
Proof.
    unfold commit_code_change, emit, load_workbench, deref, store_workbench,
      load_workbench, deref, free_text, emit, bind, ret. cbn. rewrite Hlive.
    destruct (current_code wb); cbn; rewrite Hlive; cbn;
      unfold set_workbench_objs; cbn; by rewrite <- ?app_assoc.
Qed.

Lemma generate_code_suggestion_live memory :
    generate_code_suggestion (Addr l) memory w =
    Done (tt, mkWorld (pattern_objs w) (memory_objs w)
                (<[l := mkCodeWorkbench (code_request wb) (current_code wb)
                          (Some (suggestion_header +:+ suggestion_body))]>
                   (workbench_objs w))
                (trace w ++ CallGenerate (Addr l) memory ::
                   CallUpdateSuggestion (Addr l) (suggestion_header +:+ suggestion_body) ::
                   match suggested_code wb with
                   | Some old => [FreeText (Some old)]
                   | None => []
                   end)).
Proof.
    unfold generate_code_suggestion, strcat_buf.
    rewrite decide_True by (vm_compute; lia).
    unfold emit at 1. unfold bind at 1 2, ret.
    unfold update_code_suggestion, emit, load_workbench, deref, store_workbench,
      load_workbench, deref, free_text, emit, bind, ret. cbn. rewrite Hlive.
    destruct (suggested_code wb); cbn; rewrite Hlive; cbn;
      unfold set_workbench_objs; cbn; by rewrite <- ?app_assoc.
Qed.

Lemma refine_code_suggestion_live memory src :
    suggested_code wb = Some src ->
    (String.length src <= 998)%nat ->
    refine_code_suggestion (Addr l) memory w =
    Done (tt, mkWorld (pattern_objs w) (memory_objs w)
                (<[l := mkCodeWorkbench (code_request wb) (current_code wb)
                          (Some (refine_marker +:+ src))]>
                   (workbench_objs w))
                (trace w ++ [CallRefine (Addr l) memory;
                             CallUpdateSuggestion (Addr l) (refine_marker +:+ src);
                             FreeText (Some src)])).
Proof.
    intros Hs Hlen.
    unfold refine_code_suggestion, strcat_buf, load_workbench, deref, emit, arg_s.
    unfold bind at 1 2. cbn. rewrite Hlive, Hs. unfold bind at 1, ret.
    rewrite decide_True by (change (String.length refine_marker) with 25%nat; lia).
    unfold bind at 1.
    unfold update_code_suggestion, emit, load_workbench, deref, store_workbench,
      load_workbench, deref, free_text, emit, bind, ret. cbn. rewrite Hlive, Hs.
    cbn. rewrite Hlive. cbn. unfold set_workbench_objs. cbn.
    by rewrite <- ?app_assoc.
Qed.

Lemma refine_code_suggestion_overflow memory src :
    suggested_code wb = Some src ->
    (999 <= String.length src)%nat ->
    refine_code_suggestion (Addr l) memory w = Undefined BufferOverflow.
Proof.
    intros Hs Hlen.
    unfold refine_code_suggestion, strcat_buf, load_workbench, deref, emit, arg_s.
    unfold bind at 1 2. cbn. rewrite Hlive, Hs. unfold bind at 1, ret.
    rewrite decide_False by (change (String.length refine_marker) with 25%nat; lia).
    reflexivity.
Qed.
End Workbench.

(** ** One session, statement by statement *)

Ltac norm :=
  unfold set_trace, set_workbench_objs;
  cbn [pattern_objs memory_objs workbench_objs trace code_request current_code
       suggested_code];
  rewrite ?insert_insert_eq, <- ?app_assoc; cbn [app].

Ltac field_stmt :=
  unfold bind, load_workbench, deref, arg_s, printf, free_text, emit, ret,
    commit_code_to_blockchain;
  cbn [pattern_objs memory_objs workbench_objs trace set_trace];
  rewrite ?lookup_insert_eq;
  cbn [code_request current_code suggested_code set_trace pattern_objs
       memory_objs workbench_objs trace];
  reflexivity.

Tactic Notation "next_stmt" "by" tactic(tac) :=
  rewrite run_cons; erewrite bind_done; [|solve [tac]]; norm.

Lemma orchestrate_coding_session_live w l wb memory r :
  workbench_objs w !! l = Some wb ->
  code_request wb = Some r ->
  orchestrate_coding_session (Addr l) memory w =
  Done (tt, mkWorld (pattern_objs w) (memory_objs w) (delete l (workbench_objs w))
              (trace w ++ orchestrate_events l memory r wb)).
Proof.
  intros Hl Hr.
  unfold orchestrate_coding_session.
  erewrite bind_done by reflexivity.
  unfold orchestrate_body.
  next_stmt by (unfold bind, load_workbench, deref, arg_s, printf, emit, ret; cbn;
                rewrite Hl, Hr; reflexivity).
  next_stmt by (unfold process_code_request; erewrite bind_done by reflexivity;
                apply generate_code_suggestion_live; cbn; apply Hl).
  next_stmt by field_stmt.
  next_stmt by (eapply refine_code_suggestion_live; norm;
                [apply lookup_insert_eq|reflexivity|vm_compute; lia]).
  next_stmt by field_stmt.
  next_stmt by field_stmt.
  next_stmt by field_stmt.
  next_stmt by field_stmt.
  next_stmt by field_stmt.
  next_stmt by field_stmt.
  next_stmt by (unfold bind, emit, free_obj; cbn; rewrite lookup_insert_eq;
                reflexivity).
  rewrite run_nil, delete_insert_eq, Hr.
  unfold orchestrate_events, refined_text, generated_text.
  rewrite <- ?app_assoc. reflexivity.
Qed.

Lemma session_run request memory w :
  let l := fresh (dom (workbench_objs w)) in
  session request memory w =
  Done (Addr l,
        mkWorld (pattern_objs w) (memory_objs w) (workbench_objs w)
          (trace w ++ CallInit request ::
             orchestrate_events l memory request
               (mkCodeWorkbench (Some request) None None))).
Proof.
  intros l. unfold session, init_code_workbench.
  erewrite bind_done.
  2:{ erewrite bind_done by reflexivity. reflexivity. }
  fold l. erewrite bind_done.
  2:{ eapply orchestrate_coding_session_live; [apply lookup_insert_eq|reflexivity]. }
  norm. unfold ret. rewrite delete_insert_id.
  - reflexivity.
  - apply not_elem_of_dom, is_fresh.
Qed.

(** ** Frame reasoning: what a computation leaves as it was *)

Section Preserves.
Variable R : world -> world -> Prop.
Hypothesis R_refl : forall w, R w w.
Hypothesis R_trans : forall w1 w2 w3, R w1 w2 -> R w2 w3 -> R w1 w3.
Hypothesis R_trace : forall w f, R w (set_trace f w).

Lemma preserves_ret {A : Type} (a : A) : preserves R (ret a).
Proof. intros w a' w' H. injection H as _ <-. apply R_refl. Qed.

Lemma preserves_undefined {A : Type} u : preserves R (@undefined A u).
Proof. intros w a w' H. discriminate. Qed.

Lemma preserves_lift {A : Type} (o : outcome A) : preserves R (lift o).
Proof.
    intros w a w' H. unfold lift in H. destruct o; [|discriminate].
    injection H as _ <-. apply R_refl.
Qed.

Lemma preserves_bind {A B : Type} (c : M A) (k : A -> M B) :
    preserves R c -> (forall a, preserves R (k a)) -> preserves R (bind c k).
Proof.
    intros Hc Hk w b w2 H. apply bind_inv in H as (a & w1 & H1 & H2).
    eapply R_trans; [eapply Hc|eapply Hk]; eassumption.
Qed.

Lemma preserves_emit e : preserves R (emit e).
Proof. intros w [] w' [= <-]. apply R_trace. Qed.

Lemma preserves_deref {T : Type} (heap : world -> gmap loc T) p :
    preserves R (deref heap p).
Proof.
    intros w a w' H. unfold deref in H. destruct p; [discriminate|].
    destruct (heap w !! l); [|discriminate]. injection H as _ <-. apply R_refl.
Qed.

Lemma preserves_arg_s s : preserves R (arg_s s).
Proof. destruct s; [apply preserves_ret|apply preserves_undefined]. Qed.

Lemma preserves_strcat_buf n dst src : preserves R (strcat_buf n dst src).
Proof.
    unfold strcat_buf. case_decide; [apply preserves_ret|apply preserves_undefined].
Qed.

Lemma preserves_run stmts :
    Forall (preserves R) stmts -> preserves R (run stmts).
Proof.
    induction 1 as [|s stmts Hs _ IH].
    - apply (preserves_ret tt).
    - intros w a w' H. rewrite run_cons in H. revert w a w' H.
      apply preserves_bind; [exact Hs|intros _; exact IH].
Qed.
End Preserves.

Lemma same_store_refl w : same_store w w.
Proof. by split. Qed.

Lemma same_store_trans w1 w2 w3 :
  same_store w1 w2 -> same_store w2 w3 -> same_store w1 w3.
Proof. intros [H1 H2] [H3 H4]. split; congruence. Qed.

Lemma same_store_trace w f : same_store w (set_trace f w).
Proof. by split. Qed.

Lemma same_store_workbench w f : same_store w (set_workbench_objs f w).
Proof. by split. Qed.

Lemma keeps_refl l w : keeps_current_code l w w.
Proof. intros wb H. by exists wb. Qed.

Lemma keeps_trans l w1 w2 w3 :
  keeps_current_code l w1 w2 -> keeps_current_code l w2 w3 ->
  keeps_current_code l w1 w3.
Proof.
  intros H1 H2 wb Hwb. destruct (H1 wb Hwb) as (wb2 & Hl2 & E2).
  destruct (H2 wb2 Hl2) as (wb3 & Hl3 & E3). exists wb3. split; congruence.
Qed.

Lemma keeps_trace l w f : keeps_current_code l w (set_trace f w).
Proof. intros wb H. by exists wb. Qed.

Create HintDb frame.
#[local] Hint Resolve same_store_refl same_store_trans same_store_trace
  keeps_refl keeps_trans keeps_trace : frame.
#[local] Hint Resolve preserves_ret preserves_undefined preserves_lift
  preserves_emit preserves_deref preserves_arg_s preserves_strcat_buf : frame.

Lemma store_workbench_same_store p v : preserves same_store (store_workbench p v).
Proof.
  intros w a w' H. unfold store_workbench in H.
  apply bind_inv in H as (wb & w1 & H1 & H2).
  apply (preserves_deref same_store same_store_refl) in H1.
  destruct p; [discriminate|]. revert H2. intros [= _ <-].
  eapply same_store_trans; [exact H1|apply same_store_workbench].
Qed.

#[local] Hint Resolve store_workbench_same_store : frame.

Ltac frame_steps :=
  repeat first
    [ solve [eauto with frame]
    | apply preserves_bind; [eauto with frame..| |intros ?]
    | match goal with
      | |- preserves _ (match ?x with _ => _ end) => destruct x
      | |- preserves _ (if ?x then _ else _) => destruct x
      end ].

Lemma store_workbench_keeps l p v wb0 w w' :
  load_workbench p w = Done (wb0, w) ->
  current_code v = current_code wb0 ->
  store_workbench p v w = Done (tt, w') ->
  keeps_current_code l w w'.
Proof.
  intros Hload Hcur H. unfold store_workbench in H.
  rewrite (bind_done _ _ _ _ _ Hload) in H.
  destruct p as [|l']; [discriminate|]. revert H. intros [= <-].
  intros wb Hwb. cbn. destruct (decide (l' = l)) as [->|Hne].
  - exists v. split; [apply lookup_insert_eq|].
    unfold load_workbench, deref in Hload. rewrite Hwb in Hload. congruence.
  - exists wb. split; [by rewrite lookup_insert_ne|reflexivity].
Qed.

(** ** Workbench functions on a released or null workbench pointer *)

Section Released.
Variables (w : world) (l : loc).
Hypothesis Hdead : workbench_objs w !! l = None.

Lemma update_code_suggestion_released s :
    update_code_suggestion (Addr l) s w = Undefined DanglingPointer.
Proof.
    unfold update_code_suggestion, emit, load_workbench, deref, bind. cbn.
    by rewrite Hdead.
Qed.

Lemma commit_code_change_released change :
    commit_code_change (Addr l) change w = Undefined DanglingPointer.
Proof.
    unfold commit_code_change, emit, load_workbench, deref, bind. cbn.
    by rewrite Hdead.
Qed.

Lemma generate_code_suggestion_released memory :
    generate_code_suggestion (Addr l) memory w = Undefined DanglingPointer.
Proof.
    unfold generate_code_suggestion, strcat_buf.
    rewrite decide_True by (vm_compute; lia).
    unfold update_code_suggestion, emit, load_workbench, deref, bind, ret. cbn.
    by rewrite Hdead.
Qed.

Lemma process_code_request_released memory :
    process_code_request (Addr l) memory w = Undefined DanglingPointer.
Proof.
    unfold process_code_request. erewrite bind_done by reflexivity.
    unfold generate_code_suggestion, strcat_buf.
    rewrite decide_True by (vm_compute; lia).
    unfold update_code_suggestion, emit, load_workbench, deref, bind, ret. cbn.
    by rewrite Hdead.
Qed.

Lemma refine_code_suggestion_released memory :
    refine_code_suggestion (Addr l) memory w = Undefined DanglingPointer.
Proof.
    unfold refine_code_suggestion, emit, load_workbench, deref, bind. cbn.
    by rewrite Hdead.
Qed.

Lemma orchestrate_coding_session_released memory :
    orchestrate_coding_session (Addr l) memory w = Undefined DanglingPointer.
Proof.
    unfold orchestrate_coding_session. erewrite bind_done by reflexivity.
    unfold orchestrate_body. rewrite run_cons.
    unfold emit, load_workbench, deref, bind. cbn. by rewrite Hdead.
Qed.
End Released.

Lemma update_code_suggestion_null s w :
  update_code_suggestion NULL s w = Undefined NullDereference.
Proof. reflexivity. Qed.

Lemma commit_code_change_null change w :
  commit_code_change NULL change w = Undefined NullDereference.
Proof. reflexivity. Qed.

Lemma refine_code_suggestion_null memory w :
  refine_code_suggestion NULL memory w = Undefined NullDereference.
Proof. reflexivity. Qed.

(** ** The pipeline functions leave the store alone *)

Lemma update_code_suggestion_same_store p s :
  preserves same_store (update_code_suggestion p s).
Proof.
  unfold update_code_suggestion, free_text.
  frame_steps.
Qed.

#[local] Hint Resolve update_code_suggestion_same_store : frame.

Lemma commit_code_change_same_store p change :
  preserves same_store (commit_code_change p change).
Proof.
  unfold commit_code_change, free_text.
  frame_steps.
Qed.

Lemma generate_code_suggestion_same_store p memory :
  preserves same_store (generate_code_suggestion p memory).
Proof.
  unfold generate_code_suggestion. frame_steps.
Qed.

#[local] Hint Resolve generate_code_suggestion_same_store : frame.

Lemma process_code_request_same_store p memory :
  preserves same_store (process_code_request p memory).
Proof.
  unfold process_code_request. frame_steps.
Qed.

Lemma refine_code_suggestion_same_store p memory :
  preserves same_store (refine_code_suggestion p memory).
Proof.
  unfold refine_code_suggestion. frame_steps.
Qed.

Lemma commit_code_to_blockchain_same_store code description :
  preserves same_store (commit_code_to_blockchain code description).
Proof. unfold commit_code_to_blockchain, printf. frame_steps. Qed.

Lemma init_code_workbench_same_store request :
  preserves same_store (init_code_workbench request).
Proof.
  unfold init_code_workbench. frame_steps.
  intros ? ? ? [= _ <-]. apply same_store_workbench.
Qed.

Lemma free_workbench_same_store p :
  preserves same_store
    (free_obj workbench_objs (fun l => set_workbench_objs (delete l)) p).
Proof.
  intros w a w' H. unfold free_obj in H. destruct p as [|l].
  - revert H. intros [= _ <-]. apply same_store_refl.
  - destruct (workbench_objs w !! l); [|discriminate].
    revert H. intros [= _ <-]. apply same_store_workbench.
Qed.

Lemma orchestrate_coding_session_same_store p memory :
  preserves same_store (orchestrate_coding_session p memory).
Proof.
  unfold orchestrate_coding_session.
  apply preserves_bind; eauto with frame. intros _.
  apply preserves_run; eauto with frame.
  unfold orchestrate_body, printf, free_text.
  repeat apply Forall_cons_2; try apply Forall_nil_2; frame_steps;
    first [ apply process_code_request_same_store
          | apply refine_code_suggestion_same_store
          | apply commit_code_to_blockchain_same_store
          | apply free_workbench_same_store ].
Qed.

(** ** No statement before the release touches [current_code] *)

Lemma update_code_suggestion_keeps l p s :
  preserves (keeps_current_code l) (update_code_suggestion p s).
Proof.
  intros w a w' H. destruct p as [|l']; [discriminate|].
  destruct (workbench_objs w !! l') as [wb0|] eqn:E.
  - rewrite (update_code_suggestion_live w l' wb0 E) in H.
    revert H. intros [= _ <-]. intros wb Hwb. cbn.
    destruct (decide (l' = l)) as [->|Hne].
    + eexists. split; [apply lookup_insert_eq|]. cbn. congruence.
    + exists wb. split; [by rewrite lookup_insert_ne|reflexivity].
  - by rewrite (update_code_suggestion_released w l' E) in H.
Qed.

#[local] Hint Resolve update_code_suggestion_keeps : frame.

Lemma generate_code_suggestion_keeps l p memory :
  preserves (keeps_current_code l) (generate_code_suggestion p memory).
Proof. unfold generate_code_suggestion. frame_steps. Qed.

#[local] Hint Resolve generate_code_suggestion_keeps : frame.

Lemma process_code_request_keeps l p memory :
  preserves (keeps_current_code l) (process_code_request p memory).
Proof. unfold process_code_request. frame_steps. Qed.

Lemma refine_code_suggestion_keeps l p memory :
  preserves (keeps_current_code l) (refine_code_suggestion p memory).
Proof. unfold refine_code_suggestion. frame_steps. Qed.

Lemma commit_code_to_blockchain_keeps l code description :
  preserves (keeps_current_code l) (commit_code_to_blockchain code description).
Proof. unfold commit_code_to_blockchain, printf. frame_steps. Qed.

(** The ten statements of [orchestrate_coding_session] that come before
    [free(workbench)]. *)
Lemma orchestrate_body_keeps l p memory :
  Forall (preserves (keeps_current_code l)) (take 10 (orchestrate_body p memory)).
Proof.
  unfold orchestrate_body, printf, free_text. cbn [take].
  repeat apply Forall_cons_2; try apply Forall_nil_2; frame_steps;
    first [ apply process_code_request_keeps
          | apply refine_code_suggestion_keeps
          | apply commit_code_to_blockchain_keeps ].
Qed.

Lemma session_upto_all request memory w :
  session_upto 11 request memory w = session request memory w.
Proof. reflexivity. Qed.

(** ** The workbench at the stages of a session *)

Ltac first_stmts :=
  (next_stmt by (unfold bind, load_workbench, deref, arg_s, printf, emit, ret; cbn;
                 match goal with H : workbench_objs _ !! _ = Some _ |- _ =>
                   rewrite H end; reflexivity));
  (next_stmt by (unfold process_code_request; erewrite bind_done by reflexivity;
                 apply generate_code_suggestion_live; cbn;
                 match goal with H : workbench_objs _ !! _ = Some _ |- _ =>
                   apply H end)).

Ltac stage_reached :=
  rewrite run_nil; eexists; (split; [reflexivity|]); cbn; apply lookup_insert_eq.

(** The workbench after the first 0, 2, 4, 5 and 10 statements of the body
    of [orchestrate_coding_session], run on a workbench as
    [init_code_workbench] leaves it. *)
Lemma orchestrate_body_stages w l memory request :
  workbench_objs w !! l = Some (mkCodeWorkbench (Some request) None None) ->
  let stage k wb :=
    exists wk, run (take k (orchestrate_body (Addr l) memory)) w = Done (tt, wk) /\
               workbench_objs wk !! l = Some wb in
  stage 0%nat (mkCodeWorkbench (Some request) None None) /\
  stage 2%nat (mkCodeWorkbench (Some request) None (Some generated_text)) /\
  stage 4%nat (mkCodeWorkbench (Some request) None (Some refined_text)) /\
  stage 5%nat (mkCodeWorkbench (Some request) None (Some refined_text)) /\
  stage 10%nat (mkCodeWorkbench (Some request) None (Some refined_text)).
Proof.
  intros Hl stage. unfold stage, orchestrate_body. cbn [take].
  repeat split.
  - exists w. by split.
  - first_stmts. stage_reached.
  - first_stmts.
    next_stmt by field_stmt.
    next_stmt by (eapply refine_code_suggestion_live; norm;
                  [apply lookup_insert_eq|reflexivity|vm_compute; lia]).
    stage_reached.
  - first_stmts.
    next_stmt by field_stmt.
    next_stmt by (eapply refine_code_suggestion_live; norm;
                  [apply lookup_insert_eq|reflexivity|vm_compute; lia]).
    next_stmt by field_stmt.
    stage_reached.
  - first_stmts.
    next_stmt by field_stmt.
    next_stmt by (eapply refine_code_suggestion_live; norm;
                  [apply lookup_insert_eq|reflexivity|vm_compute; lia]).
    next_stmt by field_stmt.
    next_stmt by field_stmt.
    next_stmt by field_stmt.
    next_stmt by field_stmt.
    next_stmt by field_stmt.
    next_stmt by field_stmt.
    stage_reached.
Qed.

Lemma session_upto_run request memory w k wk :
  let l := fresh (dom (workbench_objs w)) in
  run (take k (orchestrate_body (Addr l) memory))
    (set_trace (fun t => t ++ [CallOrchestrate (Addr l) memory])
       (set_workbench_objs (insert l (mkCodeWorkbench (Some request) None None))
          (set_trace (fun t => t ++ [CallInit request]) w)))
  = Done (tt, wk) ->
  session_upto k request memory w = Done (Addr l, wk).
Proof.
  intros l Hrun. unfold session_upto, init_code_workbench.
  erewrite bind_done; [|erewrite bind_done by reflexivity; reflexivity].
  fold l. erewrite bind_done by reflexivity.
  by rewrite (bind_done _ _ _ _ _ Hrun).
Qed.

Lemma session_stages request memory w :
  let l := fresh (dom (workbench_objs w)) in
  let stage k wb :=
    exists wk, session_upto k request memory w = Done (Addr l, wk) /\
               workbench_objs wk !! l = Some wb in
  stage 0%nat (mkCodeWorkbench (Some request) None None) /\
  stage 2%nat (mkCodeWorkbench (Some request) None (Some generated_text)) /\
  stage 4%nat (mkCodeWorkbench (Some request) None (Some refined_text)) /\
  stage 5%nat (mkCodeWorkbench (Some request) None (Some refined_text)) /\
  stage 10%nat (mkCodeWorkbench (Some request) None (Some refined_text)).
Proof.
  intros l stage. unfold stage.
  destruct (orchestrate_body_stages
              (set_trace (fun t => t ++ [CallOrchestrate (Addr l) memory])
                 (set_workbench_objs
                    (insert l (mkCodeWorkbench (Some request) None None))
                    (set_trace (fun t => t ++ [CallInit request]) w)))
              l memory request (lookup_insert_eq _ _ _))
    as ((w0 & R0 & L0) & (w2 & R2 & L2) & (w4 & R4 & L4) & (w5 & R5 & L5)
        & (w10 & R10 & L10)).
  repeat split; eexists; (split; [apply session_upto_run; eassumption|assumption]).
Qed.


(** ** The pattern store *)

Lemma collect_slots (b : list slot) n k ps :
  collect (map (fun i : nat => read_slot (Some b) (Z.of_nat i)) (seq k n)) = Done ps
  <-> take n (drop k b) = Some <$> ps /\ length ps = n.
Proof.
  revert k ps. induction n as [|n IH]; intros k ps.
  - cbn. split.
    + intros [= <-]. done.
    + intros [_ H]. apply length_zero_iff_nil in H. by subst.
  - cbn [seq map collect]. unfold read_slot at 1.
    rewrite decide_True by lia. rewrite Nat2Z.id.
    destruct (b !! k) as [[p|]|] eqn:E.
    + rewrite (drop_S _ _ _ E). cbn [take].
      destruct (collect _) as [r|u] eqn:Er.
      * apply IH in Er as [Et El]. split.
        -- intros [= <-]. cbn. by rewrite Et, El.
        -- intros [Hps Hl]. destruct ps as [|q ps]; [discriminate|].
           cbn in Hps, Hl. injection Hps as -> Hps. injection Hl as Hl.
           assert (Done ps = Done r) as [= ->]; [|done].
           rewrite <- (proj2 (IH (S k) ps)); [|done].
           by apply IH.
      * split; [discriminate|]. intros [Hps Hl].
        destruct ps as [|q ps]; [discriminate|].
        cbn in Hps, Hl. injection Hps as -> Hps. injection Hl as Hl.
        assert (collect (map (fun i : nat => read_slot (Some b) (Z.of_nat i))
                             (seq (S k) n)) = Done ps) as Hc by (by apply IH).
        congruence.
    + rewrite (drop_S _ _ _ E). cbn [take]. split; [discriminate|].
      intros [Hps _]. destruct ps; discriminate.
    + apply lookup_ge_None in E. rewrite drop_ge by done.
      split; [discriminate|]. intros [Hps Hl]. destruct ps; discriminate.
Qed.

Lemma stored_patterns_spec m ps :
  stored_patterns m = Done ps <->
  take (Z.to_nat (count m)) (default [] (patterns m)) = Some <$> ps /\
  length ps = Z.to_nat (count m).
Proof.
  unfold stored_patterns. destruct (patterns m) as [b|]; cbn [default from_option id].
  - rewrite collect_slots. by rewrite drop_0.
  - destruct (Z.to_nat (count m)) as [|n]; cbn.
    + split.
      * by intros [= <-].
      * intros [_ H]. apply length_zero_iff_nil in H. by subst.
    + split; [discriminate|]. intros [Hps Hl]. destruct ps; discriminate.
Qed.

Lemma load_memory_live w l m :
  memory_objs w !! l = Some m -> load_memory (Addr l) w = Done (m, w).
Proof. intros H. unfold load_memory, deref. by rewrite H. Qed.

Lemma store_memory_live w l m v :
  memory_objs w !! l = Some m ->
  store_memory (Addr l) v w = Done (tt, set_memory_objs (insert l v) w).
Proof.
  intros H. unfold store_memory.
  by rewrite (bind_done _ _ _ _ _ (load_memory_live _ _ _ H)).
Qed.

(** [add_pattern_to_memory] when there is room: the capacity stays. *)
Lemma add_pattern_to_memory_room w l m b p :
  memory_objs w !! l = Some m ->
  patterns m = Some b ->
  count m <> capacity m ->
  0 <= count m < Z.of_nat (length b) ->
  count m + 1 <= INT_MAX ->
  add_pattern_to_memory (Addr l) p w =
  Done (tt, set_memory_objs
              (insert l (mkCodeMemory (Some (<[Z.to_nat (count m) := Some p]> b))
                           (count m + 1) (capacity m))) w).
Proof.
  intros Hl Hb Hne Hc Hmax. unfold add_pattern_to_memory.
  rewrite (bind_done _ _ _ _ _ (load_memory_live _ _ _ Hl)).
  rewrite decide_False by done.
  erewrite bind_done by reflexivity.
  unfold write_slot. rewrite Hb, decide_True by done.
  erewrite bind_done by reflexivity.
  unfold int_add. rewrite decide_True by (unfold INT_MAX in *; lia).
  erewrite bind_done by reflexivity.
  by apply store_memory_live with m.
Qed.

(** [add_pattern_to_memory] on a full store: the capacity doubles first. *)
Lemma add_pattern_to_memory_full w l m p :
  memory_objs w !! l = Some m ->
  count m = capacity m ->
  1 <= capacity m ->
  2 * capacity m <= INT_MAX ->
  add_pattern_to_memory (Addr l) p w =
  Done (tt, set_memory_objs
              (insert l (mkCodeMemory
                           (Some (<[Z.to_nat (count m) := Some p]>
                                    (resize (Z.to_nat (capacity m * 2)) None
                                       (default [] (patterns m)))))
                           (count m + 1) (capacity m * 2))) w).
Proof.
  intros Hl Heq Hcap Hmax. unfold add_pattern_to_memory.
  rewrite (bind_done _ _ _ _ _ (load_memory_live _ _ _ Hl)).
  rewrite decide_True by done.
  unfold int_mul. rewrite decide_True by (unfold INT_MAX in *; lia).
  erewrite bind_done by reflexivity.
  unfold write_slot, realloc. cbn [patterns count capacity].
  rewrite decide_True by (rewrite length_resize; lia).
  erewrite bind_done by reflexivity.
  unfold int_add. rewrite decide_True by (unfold INT_MAX in *; lia).
  erewrite bind_done by reflexivity.
  by apply store_memory_live with m.
Qed.

(** On a full store whose doubled capacity does not fit an [int], the
    multiplication overflows. *)
Lemma add_pattern_to_memory_overflow w l m p :
  memory_objs w !! l = Some m ->
  count m = capacity m ->
  INT_MAX < 2 * capacity m ->
  add_pattern_to_memory (Addr l) p w = Undefined SignedOverflow.
Proof.
  intros Hl Heq Hmax. unfold add_pattern_to_memory.
  rewrite (bind_done _ _ _ _ _ (load_memory_live _ _ _ Hl)).
  rewrite decide_True by done.
  unfold int_mul. rewrite decide_False by (unfold INT_MAX in *; lia).
  reflexivity.
Qed.

(** A null pattern array: the write goes through the null pointer. *)
Lemma add_pattern_to_memory_null_array w l m p :
  memory_objs w !! l = Some m ->
  patterns m = None ->
  count m <> capacity m ->
  add_pattern_to_memory (Addr l) p w = Undefined NullDereference.
Proof.
  intros Hl Hb Hne. unfold add_pattern_to_memory.
  rewrite (bind_done _ _ _ _ _ (load_memory_live _ _ _ Hl)).
  rewrite decide_False by done.
  erewrite bind_done by reflexivity.
  unfold write_slot. by rewrite Hb.
Qed.

(** A store of capacity zero: doubling leaves no room, the write is out of
    bounds. *)
Lemma add_pattern_to_memory_zero w l m p :
  memory_objs w !! l = Some m ->
  count m = 0 -> capacity m = 0 ->
  add_pattern_to_memory (Addr l) p w = Undefined OutOfBounds.
Proof.
  intros Hl Hc Hcap. unfold add_pattern_to_memory.
  rewrite (bind_done _ _ _ _ _ (load_memory_live _ _ _ Hl)).
  rewrite decide_True by congruence.
  unfold int_mul. rewrite decide_True by (rewrite Hcap; unfold INT_MAX; lia).
  erewrite bind_done by reflexivity.
  unfold write_slot, realloc. cbn [patterns count capacity].
  rewrite decide_False by (rewrite length_resize, Hc, Hcap; cbn; lia).
  reflexivity.
Qed.

Lemma set_memory_objs_insert_insert w l m1 m2 :
  set_memory_objs (insert l m2) (set_memory_objs (insert l m1) w) =
  set_memory_objs (insert l m2) w.
Proof. unfold set_memory_objs. cbn. by rewrite insert_insert_eq. Qed.

Lemma set_memory_objs_insert_id w l m :
  memory_objs w !! l = Some m -> set_memory_objs (insert l m) w = w.
Proof.
  intros H. unfold set_memory_objs. rewrite insert_id by done. apply world_eta.
Qed.

Lemma take_after_write (b : list slot) c p old :
  (c < length b)%nat ->
  take c b = Some <$> old ->
  take (S c) (<[c := Some p]> b) = Some <$> (old ++ [p]).
Proof.
  intros Hc Hold.
  rewrite (take_S_r _ _ (Some p)) by (by apply list_lookup_insert_eq).
  rewrite take_insert_ge by done. by rewrite Hold, fmap_app.
Qed.

(** One [add_pattern_to_memory] on a properly allocated store. *)
Lemma add_pattern_to_memory_allocated w l m p :
  memory_objs w !! l = Some m ->
  allocated m ->
  count m < capacity m \/ (1 <= capacity m /\ 2 * capacity m <= INT_MAX) ->
  exists m',
    add_pattern_to_memory (Addr l) p w =
      Done (tt, set_memory_objs (insert l m') w) /\
    allocated m' /\
    count m' = count m + 1 /\
    capacity m' =
      (if decide (count m = capacity m) then 2 * capacity m else capacity m) /\
    (forall old, stored_patterns m = Done old ->
                 stored_patterns m' = Done (old ++ [p])).
Proof.
  intros Hl (b & Hb & Hc & Hlen & Hmax) Hroom.
  destruct (decide (count m = capacity m)) as [Heq|Hne].
  - destruct Hroom as [?|[Hcap Hdbl]]; [lia|].
    eexists. split; [by apply add_pattern_to_memory_full|].
    rewrite Hb. cbn [default from_option id].
    split; [|split; [reflexivity|split; [cbn; lia|]]].
    + eexists. split; [reflexivity|]. cbn [count capacity].
      rewrite length_insert, length_resize. unfold INT_MAX in *. lia.
    + intros old Hold. apply stored_patterns_spec in Hold as [Ht Hn].
      rewrite Hb in Ht. cbn [default from_option id] in Ht.
      apply stored_patterns_spec. cbn [count patterns default from_option id].
      replace (Z.to_nat (count m + 1)) with (S (Z.to_nat (count m))) by lia.
      split; [|rewrite length_app; cbn; lia].
      apply take_after_write; [rewrite length_resize; lia|].
      rewrite take_resize_le by lia. rewrite resize_le by lia. exact Ht.
  - assert (count m < capacity m) as Hlt by (destruct Hroom; lia).
    eexists. split.
    { apply (add_pattern_to_memory_room w l m b p); try done; unfold INT_MAX in *; lia. }
    split; [|split; [reflexivity|split; [reflexivity|]]].
    + eexists. split; [reflexivity|]. cbn [count capacity].
      rewrite length_insert. lia.
    + intros old Hold. apply stored_patterns_spec in Hold as [Ht Hn].
      rewrite Hb in Ht. cbn [default from_option id] in Ht.
      apply stored_patterns_spec. cbn [count patterns default from_option id].
      replace (Z.to_nat (count m + 1)) with (S (Z.to_nat (count m))) by lia.
      split; [|rewrite length_app; cbn; lia].
      apply take_after_write; [lia|exact Ht].
Qed.

Lemma adds_cons memory p ps w :
  adds memory (p :: ps) w =
  bind (add_pattern_to_memory memory p) (fun _ => adds memory ps) w.
Proof. reflexivity. Qed.

Lemma adds_app memory ps qs w :
  adds memory (ps ++ qs) w = bind (adds memory ps) (fun _ => adds memory qs) w.
Proof. unfold adds. rewrite map_app. apply run_app. Qed.

(** A sequence of [add_pattern_to_memory] calls on a properly allocated
    store of capacity at least one, as long as every doubling fits an
    [int]. *)
Lemma adds_allocated ps : forall w l m,
  memory_objs w !! l = Some m ->
  allocated m ->
  1 <= capacity m ->
  2 * (count m + Z.of_nat (length ps) - 1) <= INT_MAX ->
  exists m',
    adds (Addr l) ps w = Done (tt, set_memory_objs (insert l m') w) /\
    allocated m' /\
    count m' = count m + Z.of_nat (length ps) /\
    capacity m <= capacity m' /\
    (count m + Z.of_nat (length ps) <= capacity m -> capacity m' = capacity m) /\
    (forall old, stored_patterns m = Done old ->
                 stored_patterns m' = Done (old ++ ps)).
Proof.
  induction ps as [|p ps IH]; intros w l m Hl Halloc Hcap Hmax.
  - exists m. unfold adds. cbn [map]. rewrite run_nil.
    rewrite set_memory_objs_insert_id by done.
    split; [done|]. split; [done|]. split; [cbn; lia|]. split; [lia|].
    split; [done|]. intros old Hold. by rewrite app_nil_r.
  - cbn [length] in Hmax |- *.
    assert (0 <= count m <= capacity m) as Hc.
    { destruct Halloc as (b & _ & Hc & _). exact Hc. }
    destruct (add_pattern_to_memory_allocated w l m p Hl Halloc)
      as (m1 & Hadd & Halloc1 & Hc1 & Hcap1 & Hst1).
    { destruct (decide (count m = capacity m)); [right|left]; lia. }
    destruct (IH (set_memory_objs (insert l m1) w) l m1)
      as (m' & Hadds & Halloc' & Hc' & Hcap' & Hsame & Hst').
    + cbn. apply lookup_insert_eq.
    + exact Halloc1.
    + rewrite Hcap1. case_decide; lia.
    + rewrite Hc1. lia.
    + exists m'. rewrite adds_cons, (bind_done _ _ _ _ _ Hadd), Hadds.
      rewrite set_memory_objs_insert_insert.
      split; [done|]. split; [done|]. split; [lia|].
      split; [rewrite Hcap1 in Hcap'; case_decide; lia|].
      split.
      * intros Hroom. rewrite Hsame; rewrite Hcap1, ?Hc1;
          rewrite decide_False by lia; lia.
      * intros old Hold. rewrite (Hst' (old ++ [p])) by auto.
        by rewrite <- app_assoc.
Qed.





Lemma analyze_code_complexity_live w pl v :
  pattern_objs w !! pl = Some v ->
  analyze_code_complexity (Addr pl) w =
  Done (tt, set_pattern_objs
              (insert pl (mkCodePattern (code_snippet v) (language v)
                            (complexity v + CODE_COMPLEXITY_FACTOR)%float)) w).
Proof.
  intros H. unfold analyze_code_complexity, store_pattern, load_pattern, deref, bind.
  rewrite H. cbn. by rewrite H.
Qed.

Lemma op_ready_add_step w l m' o :
  op_ready w o -> op_ready (set_memory_objs (insert l m') w) o.
Proof. by destruct o. Qed.

Lemma op_ready_analyze_step w pl v o :
  op_ready w o -> op_ready (set_pattern_objs (insert pl v) w) o.
Proof.
  destruct o as [|p]; [done|]. intros (ql & -> & Hq). exists ql. split; [done|].
  cbn. destruct (decide (pl = ql)) as [->|Hne].
  - rewrite lookup_insert_eq. by eexists.
  - by rewrite lookup_insert_ne.
Qed.

Lemma apply_ops_cons memory o ops w :
  apply_ops memory (o :: ops) w =
  bind (apply_op memory o) (fun _ => apply_ops memory ops) w.
Proof. reflexivity. Qed.

(** A sequence of ingestion operations keeps a properly allocated store
    properly allocated. *)
Lemma apply_ops_allocated ops : forall w l m,
  memory_objs w !! l = Some m ->
  allocated m ->
  1 <= capacity m ->
  2 * (count m + Z.of_nat (length (List.filter is_add ops)) - 1) <= INT_MAX ->
  Forall (op_ready w) ops ->
  exists w' m',
    apply_ops (Addr l) ops w = Done (tt, w') /\
    memory_objs w' !! l = Some m' /\
    allocated m' /\
    count m' = count m + Z.of_nat (length (List.filter is_add ops)) /\
    capacity m <= capacity m'.
Proof.
  induction ops as [|o ops IH]; intros w l m Hl Halloc Hcap Hmax Hready.
  - exists w, m. cbn. repeat split; try done; lia.
  - apply Forall_cons in Hready as [Ho Hready].
    assert (0 <= count m <= capacity m) as Hc.
    { destruct Halloc as (b & _ & Hc & _). exact Hc. }
    destruct o as [p|p]; cbn [List.filter is_add length] in Hmax |- *.
    + destruct (add_pattern_to_memory_allocated w l m p Hl Halloc)
        as (m1 & Hadd & Halloc1 & Hc1 & Hcap1 & _).
      { destruct (decide (count m = capacity m)); [right|left]; lia. }
      destruct (IH (set_memory_objs (insert l m1) w) l m1)
        as (w' & m' & Hrun & Hl' & Halloc' & Hc' & Hcap').
      * cbn. apply lookup_insert_eq.
      * exact Halloc1.
      * rewrite Hcap1. case_decide; lia.
      * rewrite Hc1. lia.
      * eapply Forall_impl; [exact Hready|]. intros o. apply op_ready_add_step.
      * exists w', m'. rewrite apply_ops_cons. cbn [apply_op].
        rewrite (bind_done _ _ _ _ _ Hadd).
        repeat split; try done; [lia|].
        rewrite Hcap1 in Hcap'. case_decide; lia.
    + destruct Ho as (pl & -> & [v Hv]).
      destruct (IH (set_pattern_objs
                      (insert pl (mkCodePattern (code_snippet v) (language v)
                                    (complexity v + CODE_COMPLEXITY_FACTOR)%float)) w)
                   l m)
        as (w' & m' & Hrun & Hl' & Halloc' & Hc' & Hcap'); try done.
      * eapply Forall_impl; [exact Hready|]. intros o. apply op_ready_analyze_step.
      * exists w', m'. rewrite apply_ops_cons. cbn [apply_op].
        rewrite (bind_done _ _ _ _ _ (analyze_code_complexity_live _ _ _ Hv)).
        repeat split; done.
Qed.

Lemma filter_take_length {A : Type} (f : A -> bool) (l : list A) k :
  (length (List.filter f (take k l)) <= length (List.filter f l))%nat.
Proof.
  rewrite <- (take_drop k l) at 2. rewrite List.filter_app, length_app. lia.
Qed.

(** * The claims *)

(** C1.  For every request text and every store pointer, one session runs
    the five pipeline steps once each and in this order: the workbench is
    created from the request, a suggestion is generated into it, the
    suggestion is refined, the workbench's [suggested_code] is committed to
    the ledger with description "Final Suggestion", and the workbench is
    released.  The log of the session is one fixed sequence of events (no
    loop, no retry, no branch on the input); the ledger commit occurs once
    and its content is the refined suggestion, that is the text the second
    [update_code_suggestion] wrote.  The heap shows the same steps: the
    pointer is not live before the session; the workbench is live with the
    request and no code after its creation, with the generated text after
    the second statement of the session, with the refined text after the
    fourth and still when the ledger commit reads it; it is live up to the
    last statement, and after the session it is gone, the workbench heap
    and the store being as they were before. *)
Theorem C1_session_runs_five_steps_once_in_order
    (request : string) (memory : ptr) (w : world) :
  exists l w' evs,
    session request memory w = Done (Addr l, w') /\
    trace w' = trace w ++ evs /\
    evs =
      [CallInit request;
       CallOrchestrate (Addr l) memory;
       Stdout ("Starting coding session for request: " +:+ request +:+ nl);
       CallProcess (Addr l) memory;
       CallGenerate (Addr l) memory;
       CallUpdateSuggestion (Addr l) generated_text;
       Stdout ("Initial suggestion:" +:+ nl +:+ generated_text +:+ nl);
       CallRefine (Addr l) memory;
       CallUpdateSuggestion (Addr l) refined_text;
       FreeText (Some generated_text);
       Stdout ("Refined suggestion:" +:+ nl +:+ refined_text +:+ nl);
       CallLedgerCommit refined_text "Final Suggestion";
       Stdout ("Committing code to blockchain: Final Suggestion - "
               +:+ refined_text +:+ nl);
       Stdout ("Coding session completed." +:+ nl);
       FreeText (Some request);
       FreeText None;
       FreeText (Some refined_text);
       FreeWorkbench (Addr l)] /\
    List.filter is_pipeline_step evs =
      [CallInit request;
       CallGenerate (Addr l) memory;
       CallRefine (Addr l) memory;
       CallLedgerCommit refined_text "Final Suggestion";
       FreeWorkbench (Addr l)] /\
    List.filter is_ledger_commit evs =
      [CallLedgerCommit refined_text "Final Suggestion"] /\
    refined_text = refine_marker +:+ generated_text /\
    workbench_objs w !! l = None /\
    (exists w0,
       session_upto 0 request memory w = Done (Addr l, w0) /\
       workbench_objs w0 !! l = Some (mkCodeWorkbench (Some request) None None)) /\
    (exists w2,
       session_upto 2 request memory w = Done (Addr l, w2) /\
       workbench_objs w2 !! l =
         Some (mkCodeWorkbench (Some request) None (Some generated_text))) /\
    (exists w4,
       session_upto 4 request memory w = Done (Addr l, w4) /\
       workbench_objs w4 !! l =
         Some (mkCodeWorkbench (Some request) None (Some refined_text))) /\
    (exists w5,
       session_upto 5 request memory w = Done (Addr l, w5) /\
       workbench_objs w5 !! l =
         Some (mkCodeWorkbench (Some request) None (Some refined_text))) /\
    (exists w10,
       session_upto 10 request memory w = Done (Addr l, w10) /\
       workbench_objs w10 !! l =
         Some (mkCodeWorkbench (Some request) None (Some refined_text))) /\
    session_upto 11 request memory w = Done (Addr l, w') /\
    workbench_objs w' !! l = None /\
    workbench_objs w' = workbench_objs w /\
    memory_objs w' = memory_objs w /\
    pattern_objs w' = pattern_objs w.
Proof.
  destruct (session_stages request memory w) as (H0 & H2 & H4 & H5 & H10).
  assert (workbench_objs w !! fresh (dom (workbench_objs w)) = None) as Hfresh
    by apply not_elem_of_dom, is_fresh.
  exists (fresh (dom (workbench_objs w))). eexists. eexists.
  split; [apply session_run|].
  split; [reflexivity|].
  split; [reflexivity|].
  split; [reflexivity|].
  split; [reflexivity|].
  split; [reflexivity|].
  split; [exact Hfresh|].
  split; [exact H0|]. split; [exact H2|]. split; [exact H4|].
  split; [exact H5|]. split; [exact H10|].
  split; [rewrite session_upto_all; apply session_run|].
  split; [exact Hfresh|].
  by repeat split.
Qed.

(** C4.  A full session leaves the pattern store as it was: every
    [CodeMemory] object (count, capacity, pattern array) and every
    [CodePattern] object (snippet, language, complexity) is the same after
    the session as before.  The same holds for each workbench and pipeline
    function on its own, whatever its arguments; only the ingestion calls
    write to the store. *)
Theorem C4_session_leaves_store_unchanged
    (request : string) (memory : ptr) (w : world) :
  (exists workbench w',
     session request memory w = Done (workbench, w') /\
     memory_objs w' = memory_objs w /\
     pattern_objs w' = pattern_objs w) /\
  preserves same_store (init_code_workbench request) /\
  (forall p s, preserves same_store (update_code_suggestion p s)) /\
  (forall p s, preserves same_store (commit_code_change p s)) /\
  (forall p q, preserves same_store (process_code_request p q)) /\
  (forall p q, preserves same_store (generate_code_suggestion p q)) /\
  (forall p q, preserves same_store (refine_code_suggestion p q)) /\
  (forall c d, preserves same_store (commit_code_to_blockchain c d)) /\
  (forall p q, preserves same_store (orchestrate_coding_session p q)).
Proof.
  split.
  { eexists. eexists. split; [apply session_run|]. by split. }
  split; [apply init_code_workbench_same_store|].
  split; [apply update_code_suggestion_same_store|].
  split; [apply commit_code_change_same_store|].
  split; [apply process_code_request_same_store|].
  split; [apply generate_code_suggestion_same_store|].
  split; [apply refine_code_suggestion_same_store|].
  split; [apply commit_code_to_blockchain_same_store|].
  apply orchestrate_coding_session_same_store.
Qed.

Lemma session_upto_done request memory w k :
  (k <= 10)%nat ->
  let l := fresh (dom (workbench_objs w)) in
  exists wk wb,
    session_upto k request memory w = Done (Addr l, wk) /\
    workbench_objs wk !! l = Some wb /\
    current_code wb = None.
Proof.
  intros Hk l.
  pose (w1 := set_trace (fun t => t ++ [CallOrchestrate (Addr l) memory])
                (set_workbench_objs
                   (insert l (mkCodeWorkbench (Some request) None None))
                   (set_trace (fun t => t ++ [CallInit request]) w))).
  assert (workbench_objs w1 !! l = Some (mkCodeWorkbench (Some request) None None))
    as Hl1 by apply lookup_insert_eq.
  pose proof (orchestrate_coding_session_live
                (set_workbench_objs
                   (insert l (mkCodeWorkbench (Some request) None None))
                   (set_trace (fun t => t ++ [CallInit request]) w))
                l _ memory request (lookup_insert_eq _ _ _) eq_refl) as Hfull.
  unfold orchestrate_coding_session in Hfull.
  erewrite bind_done in Hfull by reflexivity. fold w1 in Hfull.
  rewrite <- (take_drop k (orchestrate_body (Addr l) memory)), run_app in Hfull.
  apply bind_inv in Hfull as ([] & wk & Hpre & _).
  assert (keeps_current_code l w1 wk) as Hkeep.
  { eapply (preserves_run (keeps_current_code l) (keeps_refl l) (keeps_trans l));
      [|exact Hpre].
    replace k with (min k 10) by lia. rewrite <- take_take.
    apply Forall_take, orchestrate_body_keeps. }
  destruct (Hkeep _ Hl1) as (wb & Hwb & Hcur).
  exists wk, wb. split; [|by split].
  unfold session_upto, init_code_workbench.
  erewrite bind_done.
  2:{ erewrite bind_done by reflexivity. reflexivity. }
  fold l. erewrite bind_done by reflexivity. fold w1.
  by rewrite (bind_done _ _ _ _ _ Hpre).
Qed.

(** C10.  The session never calls [commit_code_change]: its log holds no
    such call, and at every point from the creation of the workbench up to
    (not including) [free(workbench)], that is after any [k <= 10] of the
    eleven statements of [orchestrate_coding_session], the workbench is live
    and its [current_code] is still the null pointer it was created with. *)
Theorem C10_session_never_commits_change
    (request : string) (memory : ptr) (w : world) (k : nat) :
  (k <= 10)%nat ->
  exists l w' evs wk wb,
    session request memory w = Done (Addr l, w') /\
    trace w' = trace w ++ evs /\
    List.filter is_commit_change evs = [] /\
    session_upto k request memory w = Done (Addr l, wk) /\
    workbench_objs wk !! l = Some wb /\
    current_code wb = None.
Proof.
  intros Hk.
  destruct (session_upto_done request memory w k Hk) as (wk & wb & H1 & H2 & H3).
  exists (fresh (dom (workbench_objs w))). eexists. eexists. exists wk, wb.
  split; [apply session_run|].
  split; [reflexivity|].
  split; [reflexivity|].
  by repeat split.
Qed.

Lemma C10_witness :
  (10 <= 10)%nat /\
  exists l w' evs wk wb,
    session "Create a function to sort an array" NULL empty_world = Done (Addr l, w') /\
    trace w' = trace empty_world ++ evs /\
    List.filter is_commit_change evs = [] /\
    session_upto 10 "Create a function to sort an array" NULL empty_world
      = Done (Addr l, wk) /\
    workbench_objs wk !! l = Some wb /\
    current_code wb = None.
Proof.
  split; [lia|].
  apply (C10_session_never_commits_change
           "Create a function to sort an array" NULL empty_world 10).
  lia.
Defined.

(** C6, as the specification states it, fails: after a session the
    workbench is released, and a later [update_code_suggestion] or
    [commit_code_change] on it is not turned down with an error; the code
    checks nothing and dereferences the released pointer, which is undefined
    behaviour. *)
Lemma C6_counterexample_no_state_misuse_error :
  match session "Create a function to sort an array" NULL empty_world with
  | Done (workbench, w') =>
      update_code_suggestion workbench "x" w' = Undefined DanglingPointer /\
      commit_code_change workbench "x" w' = Undefined DanglingPointer /\
      ~ rejected (update_code_suggestion workbench "x") w' /\
      ~ rejected (commit_code_change workbench "x") w'
  | Undefined _ => False
  end.
Proof.
  rewrite session_run.
  assert (workbench_objs empty_world !! fresh (dom (workbench_objs empty_world))
          = None) as Hdead by reflexivity.
  split; [by apply update_code_suggestion_released|].
  split; [by apply commit_code_change_released|].
  split; intros (w' & H & _).
  - by rewrite update_code_suggestion_released in H.
  - by rewrite commit_code_change_released in H.
Qed.

(** C6, amended.  After a session the workbench object is released (its
    pointer is no longer live).  The code has no StateMisuse error and no
    check for a released workbench: every workbench function and pipeline
    step called on the released pointer is a use after free, with undefined
    behaviour rather than a reported error. *)
Theorem C6_released_workbench_is_use_after_free
    (request : string) (memory : ptr) (w : world) :
  exists l w',
    session request memory w = Done (Addr l, w') /\
    workbench_objs w' !! l = None /\
    (forall s, update_code_suggestion (Addr l) s w' = Undefined DanglingPointer) /\
    (forall s, commit_code_change (Addr l) s w' = Undefined DanglingPointer) /\
    (forall q, process_code_request (Addr l) q w' = Undefined DanglingPointer) /\
    (forall q, generate_code_suggestion (Addr l) q w' = Undefined DanglingPointer) /\
    (forall q, refine_code_suggestion (Addr l) q w' = Undefined DanglingPointer) /\
    (forall q, orchestrate_coding_session (Addr l) q w' = Undefined DanglingPointer).
Proof.
  exists (fresh (dom (workbench_objs w))). eexists.
  split; [apply session_run|].
  assert (workbench_objs w !! fresh (dom (workbench_objs w)) = None) as Hdead
    by apply not_elem_of_dom, is_fresh.
  split; [exact Hdead|].
  split; [intros s; by apply update_code_suggestion_released|].
  split; [intros s; by apply commit_code_change_released|].
  split; [intros q; by apply process_code_request_released|].
  split; [intros q; by apply generate_code_suggestion_released|].
  split; [intros q; by apply refine_code_suggestion_released|].
  intros q; by apply orchestrate_coding_session_released.
Qed.

Lemma generated_for_any request : generated_for request = Some generated_text.
Proof.
  unfold generated_for, init_code_workbench.
  erewrite bind_done.
  2:{ erewrite bind_done by reflexivity. reflexivity. }
  erewrite bind_done.
  2:{ eapply generate_code_suggestion_live. apply lookup_insert_eq. }
  unfold load_workbench, deref. cbn [workbench_objs].
  by rewrite lookup_insert_eq.
Qed.

(** C5, as the specification states it, fails: the text Generate writes is
    not derived from the request.  Two different requests get the same
    text, and no two requests get different ones. *)
Lemma C5_counterexample_text_ignores_request :
  generated_for "Create a function to sort an array" =
    generated_for "Reverse a linked list" /\
  ~ depends_on_request generated_for.
Proof.
  split; [by rewrite !generated_for_any|].
  intros (r1 & r2 & H). apply H. by rewrite !generated_for_any.
Qed.

(** C5, amended.  On a live workbench Generate always succeeds, for every
    request the workbench holds and every store pointer: it calls
    [update_code_suggestion] once with one fixed, non-empty template text
    (73 characters), which becomes the workbench's [suggested_code]; the
    request and the current code are untouched and so is the store.  The
    text is a constant: it depends neither on the request nor on the
    store. *)
Theorem C5_generate_writes_fixed_template
    (w : world) (l : loc) (wb : CodeWorkbench) (memory : ptr) :
  workbench_objs w !! l = Some wb ->
  exists w',
    generate_code_suggestion (Addr l) memory w = Done (tt, w') /\
    workbench_objs w' !! l =
      Some (mkCodeWorkbench (code_request wb) (current_code wb)
              (Some generated_text)) /\
    List.filter
      (fun e => match e with CallUpdateSuggestion _ _ => true | _ => false end)
      (drop (length (trace w)) (trace w')) =
      [CallUpdateSuggestion (Addr l) generated_text] /\
    generated_text =
      "Here's a suggestion based on your request:" +:+ nl +:+
      "/* Your generated code here */" /\
    String.length generated_text = 73%nat /\
    same_store w w'.
Proof.
  intros Hl. eexists.
  split; [by apply generate_code_suggestion_live|].
  cbn [workbench_objs trace].
  split; [apply lookup_insert_eq|].
  split; [|by repeat split].
  rewrite drop_app_length. by destruct (suggested_code wb).
Qed.

Lemma C5_witness :
  workbench_objs
    (mkWorld ∅ ∅ {[1%positive := mkCodeWorkbench (Some "sort") None None]} [])
    !! 1%positive = Some (mkCodeWorkbench (Some "sort") None None) /\
  exists w',
    generate_code_suggestion (Addr 1%positive) NULL
      (mkWorld ∅ ∅ {[1%positive := mkCodeWorkbench (Some "sort") None None]} [])
      = Done (tt, w') /\
    workbench_objs w' !! 1%positive =
      Some (mkCodeWorkbench (Some "sort") None (Some generated_text)) /\
    List.filter
      (fun e => match e with CallUpdateSuggestion _ _ => true | _ => false end)
      (drop 0 (trace w')) =
      [CallUpdateSuggestion (Addr 1%positive) generated_text] /\
    generated_text =
      "Here's a suggestion based on your request:" +:+ nl +:+
      "/* Your generated code here */" /\
    String.length generated_text = 73%nat /\
    same_store
      (mkWorld ∅ ∅ {[1%positive := mkCodeWorkbench (Some "sort") None None]} [])
      w'.
Proof.
  split; [reflexivity|].
  apply (C5_generate_writes_fixed_template
           (mkWorld ∅ ∅ {[1%positive := mkCodeWorkbench (Some "sort") None None]} [])
           1%positive (mkCodeWorkbench (Some "sort") None None) NULL).
  reflexivity.
Defined.

(** ** Committing changes *)

Lemma commits_cons workbench change changes w :
  commits workbench (change :: changes) w =
  bind (commit_code_change workbench change) (fun _ => commits workbench changes) w.
Proof. reflexivity. Qed.

(** Each [commit_code_change] appends its text to what is there. *)
Lemma commits_append changes : forall w l wb cur,
  workbench_objs w !! l = Some wb ->
  current_code wb = Some cur ->
  exists w',
    commits (Addr l) changes w = Done (tt, w') /\
    workbench_objs w' !! l =
      Some (mkCodeWorkbench (code_request wb)
              (Some (fold_left String.append changes cur)) (suggested_code wb)).
Proof.
  induction changes as [|c changes IH]; intros w l wb cur Hl Hcur.
  - exists w. split; [reflexivity|]. cbn. rewrite Hl, <- Hcur. by destruct wb.
  - rewrite commits_cons.
    rewrite (bind_done _ _ _ _ _ (commit_code_change_live w l wb Hl c)).
    rewrite Hcur. cbn [default from_option id fold_left].
    apply (IH _ l (mkCodeWorkbench (code_request wb) (Some (cur +:+ c))
                     (suggested_code wb)) (cur +:+ c));
      [apply lookup_insert_eq|reflexivity].
Qed.

(** C8.  On a live workbench whose [current_code] is empty (the null
    pointer of a fresh workbench, or an empty text), [commit_code_change]
    sets [current_code] to the given text, and every later call appends its
    text at the end, by plain concatenation with no separator: after the
    changes [a], [r1], ..., [rn] the buffer holds [a r1 ... rn].  The
    request and the suggestion are untouched.  On a fresh workbench, "a"
    then "b" gives "ab". *)
Theorem C8_commit_change_sets_then_appends
    (w : world) (l : loc) (wb : CodeWorkbench) (a : string) (rest : list string) :
  workbench_objs w !! l = Some wb ->
  current_code wb = None \/ current_code wb = Some EmptyString ->
  exists w1 w2,
    commit_code_change (Addr l) a w = Done (tt, w1) /\
    workbench_objs w1 !! l =
      Some (mkCodeWorkbench (code_request wb) (Some a) (suggested_code wb)) /\
    commits (Addr l) rest w1 = Done (tt, w2) /\
    workbench_objs w2 !! l =
      Some (mkCodeWorkbench (code_request wb)
              (Some (fold_left String.append rest a)) (suggested_code wb)).
Proof.
  intros Hl Hempty.
  assert (default EmptyString (current_code wb) +:+ a = a) as Ha.
  { destruct Hempty as [-> | ->]; reflexivity. }
  pose proof (commit_code_change_live w l wb Hl a) as Hfirst.
  rewrite Ha in Hfirst.
  match type of Hfirst with
  | _ = Done (_, ?w1) =>
      destruct (commits_append rest w1 l
                  (mkCodeWorkbench (code_request wb) (Some a) (suggested_code wb)) a
                  (lookup_insert_eq _ _ _) eq_refl) as (w2 & Hrun & Hl2)
  end.
  eexists. exists w2. split; [exact Hfirst|].
  split; [apply lookup_insert_eq|]. split; [exact Hrun|exact Hl2].
Qed.

Lemma C8_witness :
  workbench_objs
    (mkWorld ∅ ∅ {[1%positive := mkCodeWorkbench (Some "sort") None None]} [])
    !! 1%positive = Some (mkCodeWorkbench (Some "sort") None None) /\
  (current_code (mkCodeWorkbench (Some "sort") None None) = None \/
   current_code (mkCodeWorkbench (Some "sort") None None) = Some EmptyString) /\
  exists w1 w2,
    commit_code_change (Addr 1%positive) "a"
      (mkWorld ∅ ∅ {[1%positive := mkCodeWorkbench (Some "sort") None None]} [])
      = Done (tt, w1) /\
    workbench_objs w1 !! 1%positive =
      Some (mkCodeWorkbench (Some "sort") (Some "a") None) /\
    commits (Addr 1%positive) ["b"] w1 = Done (tt, w2) /\
    workbench_objs w2 !! 1%positive =
      Some (mkCodeWorkbench (Some "sort") (Some "ab") None).
Proof.
  split; [reflexivity|]. split; [by left|].
  apply (C8_commit_change_sets_then_appends
           (mkWorld ∅ ∅ {[1%positive := mkCodeWorkbench (Some "sort") None None]} [])
           1%positive (mkCodeWorkbench (Some "sort") None None) "a" ["b"]).
  - reflexivity.
  - by left.
Defined.

(** ** Refining *)

Lemma string_length_append (s t : string) :
  String.length (s +:+ t) = (String.length s + String.length t)%nat.
Proof. induction s as [|c s IH]; simpl; [reflexivity|by f_equal]. Qed.

(** Within the 1024-byte buffer, refining prepends the marker, and refining
    twice nests it: the result of one call is not a fixed point. *)
Lemma refine_code_suggestion_nests w l wb memory src :
  workbench_objs w !! l = Some wb ->
  suggested_code wb = Some src ->
  (String.length src <= 973)%nat ->
  exists w1 w2,
    refine_code_suggestion (Addr l) memory w = Done (tt, w1) /\
    workbench_objs w1 !! l =
      Some (mkCodeWorkbench (code_request wb) (current_code wb)
              (Some (refine_marker +:+ src))) /\
    refine_code_suggestion (Addr l) memory w1 = Done (tt, w2) /\
    workbench_objs w2 !! l =
      Some (mkCodeWorkbench (code_request wb) (current_code wb)
              (Some (refine_marker +:+ refine_marker +:+ src))) /\
    refine_marker +:+ refine_marker +:+ src <> refine_marker +:+ src.
Proof.
  intros Hl Hs Hlen. eexists. eexists.
  split; [eapply refine_code_suggestion_live; [exact Hl|exact Hs|lia]|].
  cbn [workbench_objs]. split; [apply lookup_insert_eq|].
  split.
  { erewrite refine_code_suggestion_live;
      [reflexivity|apply lookup_insert_eq|reflexivity|].
    rewrite string_length_append. change (String.length refine_marker) with 25%nat.
    lia. }
  cbn [workbench_objs code_request current_code].
  split; [by rewrite insert_insert_eq, lookup_insert_eq|].
  intros H. apply (f_equal String.length) in H.
  rewrite !string_length_append in H.
  change (String.length refine_marker) with 25%nat in H. lia.
Qed.

(** C3: the code at a failing input.  A fresh workbench, one Generate, then
    Refine again and again: 38 calls nest the marker 38 times (the
    suggestion is then 1023 characters long), and the 39th call copies it
    behind the marker into [char refined[1024]], which overflows the
    buffer.  So "one Refine call leaves the marker prepended to S" does not
    hold for every S: it holds while S has at most 998 characters. *)
Theorem C3_refine_overflows_its_buffer :
  (exists w' wb s,
     (let* workbench := init_code_workbench "Create a function to sort an array" in
      generate_code_suggestion workbench NULL ;;
      refines 38 workbench NULL) empty_world = Done (tt, w') /\
     workbench_objs w' !! 1%positive = Some wb /\
     suggested_code wb = Some s /\
     String.length s = 1023%nat) /\
  (let* workbench := init_code_workbench "Create a function to sort an array" in
   generate_code_suggestion workbench NULL ;;
   refines 39 workbench NULL) empty_world = Undefined BufferOverflow.
Proof.
  split.
  - eexists. eexists. eexists. split; [vm_compute; reflexivity|].
    split; [vm_compute; reflexivity|]. split; [reflexivity|]. 
    vm_compute. reflexivity.
  - vm_compute. reflexivity.
Qed.

(** ** The growth of the store *)

Lemma stored_patterns_empty m : count m = 0 -> stored_patterns m = Done [].
Proof. intros H. unfold stored_patterns. by rewrite H. Qed.

(** Filling an empty, properly allocated store of capacity [C] and adding
    one more pattern. *)
Lemma adds_fill_then_double (C : Z) w l m ps p :
  memory_objs w !! l = Some m ->
  allocated m ->
  count m = 0 -> capacity m = C ->
  1 <= C -> 2 * C <= INT_MAX ->
  Z.of_nat (length ps) = C ->
  exists m1 m2,
    adds (Addr l) ps w = Done (tt, set_memory_objs (insert l m1) w) /\
    count m1 = C /\ capacity m1 = C /\ stored_patterns m1 = Done ps /\
    adds (Addr l) (ps ++ [p]) w = Done (tt, set_memory_objs (insert l m2) w) /\
    count m2 = C + 1 /\ capacity m2 = 2 * C /\
    stored_patterns m2 = Done (ps ++ [p]).
Proof.
  intros Hl Halloc Hc Hcap HC Hmax Hlen.
  destruct (adds_allocated ps w l m Hl Halloc)
    as (m1 & Hadds & Halloc1 & Hc1 & _ & Hcap1 & Hst1); [lia|lia|].
  rewrite Hc, Hlen, Z.add_0_l in Hc1.
  assert (capacity m1 = C) as Hcap1' by (rewrite Hcap1; lia).
  clear Hcap1. rename Hcap1' into Hcap1.
  specialize (Hst1 [] (stored_patterns_empty m Hc)). cbn [app] in Hst1.
  destruct (add_pattern_to_memory_allocated
              (set_memory_objs (insert l m1) w) l m1 p)
    as (m2 & Hadd & _ & Hc2 & Hcap2 & Hst2);
    [apply lookup_insert_eq|exact Halloc1|right; rewrite Hcap1; lia|].
  rewrite decide_True in Hcap2 by congruence.
  exists m1, m2. repeat split; try done; try lia.
  - rewrite adds_app, (bind_done _ _ _ _ _ Hadds).
    unfold adds. cbn [map]. rewrite run_cons, (bind_done _ _ _ _ _ Hadd), run_nil.
    by rewrite set_memory_objs_insert_insert.
  - by apply Hst2.
Qed.

(** When the doubled capacity does not fit an [int], the Add that finds
    the store full overflows. *)
Lemma adds_fill_then_overflow (C : Z) w l m ps p :
  memory_objs w !! l = Some m ->
  allocated m ->
  count m = 0 -> capacity m = C ->
  1 <= C -> 2 * (C - 1) <= INT_MAX -> INT_MAX < 2 * C ->
  Z.of_nat (length ps) = C ->
  adds (Addr l) (ps ++ [p]) w = Undefined SignedOverflow.
Proof.
  intros Hl Halloc Hc Hcap HC Hfit Hover Hlen.
  destruct (adds_allocated ps w l m Hl Halloc)
    as (m1 & Hadds & _ & Hc1 & _ & Hcap1 & _); [lia|lia|].
  rewrite adds_app, (bind_done _ _ _ _ _ Hadds).
  unfold adds. cbn [map]. rewrite run_cons.
  apply bind_undefined.
  apply add_pattern_to_memory_overflow with m1;
    [apply lookup_insert_eq|rewrite Hcap1; lia|rewrite Hcap1; lia].
Qed.

(** C2, as the specification states it, fails in two places.  The store
    [main] creates with capacity 10 has a null pattern array, so the first
    of the eleven Adds writes through a null pointer.  And with a pattern
    array of 2^30 slots the store is full after 2^30 Adds, and the next Add
    doubles the [int] capacity to 2^31, which overflows. *)
Lemma C2_counterexample_null_array_and_int_overflow :
  ~ growth_law 10 /\ ~ growth_law 1073741824.
Proof.
  split.
  - intros H.
    destruct (H (mkWorld ∅ {[1%positive := mkCodeMemory None 0 10]} ∅ [])
                1%positive (mkCodeMemory None 0 10) (replicate 11 NULL))
      as (w' & m' & Hrun & _); try reflexivity.
    vm_compute in Hrun. discriminate.
  - intros H.
    pose (m := mkCodeMemory (Some (replicate (Z.to_nat 1073741824) (@None ptr)))
                 0 1073741824).
    pose (w := mkWorld ∅ {[1%positive := m]} ∅ []).
    assert (memory_objs w !! 1%positive = Some m) as Hl
      by apply lookup_singleton_eq.
    assert (allocated m) as Halloc.
    { eexists. split; [reflexivity|]. unfold m. cbn [count capacity].
      rewrite length_replicate. unfold INT_MAX. lia. }
    assert (Z.of_nat (length (replicate (Z.to_nat 1073741824) NULL)) = 1073741824)
      as Hlen by (rewrite length_replicate; lia).
    destruct (H w 1%positive m (replicate (Z.to_nat 1073741824) NULL ++ [NULL]))
      as (w' & m' & Hrun & _); [exact Hl|reflexivity|reflexivity| |].
    { rewrite length_app, Nat2Z.inj_add, Hlen. reflexivity. }
    assert (1 <= 1073741824) as H1 by lia.
    assert (2 * (1073741824 - 1) <= INT_MAX) as H2 by (unfold INT_MAX; lia).
    assert (INT_MAX < 2 * 1073741824) as H3 by (unfold INT_MAX; lia).
    rewrite (adds_fill_then_overflow 1073741824 w 1%positive m _ NULL
               Hl Halloc eq_refl eq_refl H1 H2 H3 Hlen) in Hrun.
    discriminate Hrun.
Qed.

(** C2, amended.  Take a store with count 0 and capacity [C], where
    [1 <= C <= 1073741823] (so that [2 * C] fits an [int]) and the pattern
    array is allocated with at least [C] slots.  Of [C + 1] Adds, each
    appends its pattern at the end of the stored sequence; after the first
    [k <= C] of them the capacity is still [C] (no growth before the store
    is full), and the Add that finds [count = capacity] doubles the capacity
    to exactly [2 * C] before it appends, so after all [C + 1] the capacity
    is [2 * C]. *)
Theorem C2_growth_law_within_int
    (C : Z) (w : world) (l : loc) (m : CodeMemory) (b : list slot)
    (qs : list ptr) (k : nat) :
  memory_objs w !! l = Some m ->
  patterns m = Some b ->
  count m = 0 -> capacity m = C ->
  C <= Z.of_nat (length b) ->
  1 <= C -> 2 * C <= INT_MAX ->
  Z.of_nat (length qs) = C + 1 ->
  (k <= length qs)%nat ->
  exists mk,
    adds (Addr l) (take k qs) w = Done (tt, set_memory_objs (insert l mk) w) /\
    count mk = Z.of_nat k /\
    capacity mk = (if decide (Z.of_nat k <= C) then C else 2 * C) /\
    stored_patterns mk = Done (take k qs).
Proof.
  intros Hl Hb Hc Hcap Hlen HC Hmax Hqs Hk.
  assert (allocated m) as Halloc.
  { exists b. unfold INT_MAX in *. repeat split; try done; lia. }
  destruct (decide (Z.of_nat k <= C)) as [Hle|Hgt].
  - destruct (adds_allocated (take k qs) w l m Hl Halloc)
      as (mk & Hadds & _ & Hck & _ & Hcapk & Hstk);
      rewrite ?length_take_le by lia; [lia|lia|].
    rewrite length_take_le in Hck, Hcapk by lia.
    exists mk. split; [exact Hadds|]. split; [lia|].
    split; [rewrite Hcapk; lia|].
    apply (Hstk [] (stored_patterns_empty m Hc)).
  - assert (k = length qs) as -> by lia.
    rewrite firstn_all.
    assert (exists ps p, qs = ps ++ [p]) as (ps & p & ->).
    { destruct qs as [|q qs] using rev_ind; [cbn in Hqs; lia|by eexists _, _]. }
    rewrite length_app in Hqs. cbn [length] in Hqs.
    destruct (adds_fill_then_double C w l m ps p Hl Halloc Hc Hcap HC Hmax)
      as (m1 & m2 & _ & _ & _ & _ & Hadds & Hc2 & Hcap2 & Hst2); [lia|].
    exists m2. split; [exact Hadds|].
    split; [rewrite length_app; cbn [length]; lia|]. by split.
Qed.

Lemma C2_witness :
  memory_objs (mkWorld ∅ {[1%positive := mkCodeMemory (Some [None; None]) 0 2]} ∅ [])
    !! 1%positive = Some (mkCodeMemory (Some [None; None]) 0 2) /\
  patterns (mkCodeMemory (Some [None; None]) 0 2) = Some [None; None] /\
  count (mkCodeMemory (Some [None; None]) 0 2) = 0 /\
  capacity (mkCodeMemory (Some [None; None]) 0 2) = 2 /\
  2 <= Z.of_nat (length [@None ptr; None]) /\
  1 <= 2 /\ 2 * 2 <= INT_MAX /\
  Z.of_nat (length [Addr 1%positive; Addr 2%positive; Addr 1%positive]) = 2 + 1 /\
  (3 <= length [Addr 1%positive; Addr 2%positive; Addr 1%positive])%nat /\
  exists mk,
    adds (Addr 1%positive)
      (take 3 [Addr 1%positive; Addr 2%positive; Addr 1%positive])
      (mkWorld ∅ {[1%positive := mkCodeMemory (Some [None; None]) 0 2]} ∅ [])
    = Done (tt, set_memory_objs (insert 1%positive mk)
                  (mkWorld ∅ {[1%positive := mkCodeMemory (Some [None; None]) 0 2]}
                     ∅ [])) /\
    count mk = Z.of_nat 3 /\
    capacity mk = (if decide (Z.of_nat 3 <= 2) then 2 else 2 * 2) /\
    stored_patterns mk =
      Done (take 3 [Addr 1%positive; Addr 2%positive; Addr 1%positive]).
Proof.
  split; [reflexivity|]. split; [reflexivity|]. split; [reflexivity|].
  split; [reflexivity|]. split; [cbn; lia|]. split; [lia|].
  split; [unfold INT_MAX; lia|]. split; [reflexivity|]. split; [cbn; lia|].
  apply (C2_growth_law_within_int 2
           (mkWorld ∅ {[1%positive := mkCodeMemory (Some [None; None]) 0 2]} ∅ [])
           1%positive (mkCodeMemory (Some [None; None]) 0 2) [None; None]
           [Addr 1%positive; Addr 2%positive; Addr 1%positive] 3).
  - reflexivity.
  - reflexivity.
  - reflexivity.
  - reflexivity.
  - cbn; lia.
  - lia.
  - unfold INT_MAX; lia.
  - reflexivity.
  - cbn; lia.
Defined.

(** ** The store invariant *)

(** C7.  The invariant [capacity >= count] is not kept for every configured
    capacity: on a store with count 0 and capacity 0, which satisfies the
    invariant, [add_pattern_to_memory] finds the store full, doubles the
    capacity 0 to 0, reallocates the array to no slot at all and writes
    [patterns[0]] outside it.  The doubling, meant to make room for the new
    pattern, makes none; in C the count then becomes 1, above the capacity
    0. *)
Theorem C7_add_at_capacity_zero_writes_out_of_bounds
    (w : world) (l : loc) (m : CodeMemory) (p : ptr) :
  memory_objs w !! l = Some m ->
  count m = 0 ->
  capacity m = 0 ->
  invariant m /\
  int_mul (capacity m) 2 w = Done (0, w) /\
  realloc (patterns m) 0 = Some [] /\
  write_slot (Some []) (count m) p = Undefined OutOfBounds /\
  apply_op (Addr l) (Add p) w = Undefined OutOfBounds /\
  ~ invariant_preserved_by (Add p).
Proof.
  intros Hl Hc Hcap.
  assert (invariant m) as Hinv by (unfold invariant; lia).
  split; [exact Hinv|].
  split. { rewrite Hcap. reflexivity. }
  split. { unfold realloc. by rewrite resize_0. }
  split. { rewrite Hc. reflexivity. }
  split. { cbn [apply_op]. by apply add_pattern_to_memory_zero with m. }
  intros H. destruct (H w l m Hl Hinv) as (w' & m' & Hrun & _).
  cbn [apply_op] in Hrun.
  rewrite (add_pattern_to_memory_zero w l m p Hl Hc Hcap) in Hrun.
  discriminate Hrun.
Qed.

Lemma C7_witness :
  memory_objs (mkWorld ∅ {[1%positive := mkCodeMemory (Some []) 0 0]} ∅ [])
    !! 1%positive = Some (mkCodeMemory (Some []) 0 0) /\
  count (mkCodeMemory (Some []) 0 0) = 0 /\
  capacity (mkCodeMemory (Some []) 0 0) = 0 /\
  allocated (mkCodeMemory (Some []) 0 0) /\
  invariant (mkCodeMemory (Some []) 0 0) /\
  int_mul (capacity (mkCodeMemory (Some []) 0 0)) 2
    (mkWorld ∅ {[1%positive := mkCodeMemory (Some []) 0 0]} ∅ [])
  = Done (0, mkWorld ∅ {[1%positive := mkCodeMemory (Some []) 0 0]} ∅ []) /\
  realloc (patterns (mkCodeMemory (Some []) 0 0)) 0 = Some [] /\
  write_slot (Some []) (count (mkCodeMemory (Some []) 0 0)) (Addr 7%positive)
  = Undefined OutOfBounds /\
  apply_op (Addr 1%positive) (Add (Addr 7%positive))
    (mkWorld ∅ {[1%positive := mkCodeMemory (Some []) 0 0]} ∅ [])
  = Undefined OutOfBounds /\
  ~ invariant_preserved_by (Add (Addr 7%positive)).
Proof.
  split; [reflexivity|]. split; [reflexivity|]. split; [reflexivity|].
  split. { exists []. cbn. unfold INT_MAX. repeat split; lia. }
  exact (C7_add_at_capacity_zero_writes_out_of_bounds
           (mkWorld ∅ {[1%positive := mkCodeMemory (Some []) 0 0]} ∅ [])
           1%positive (mkCodeMemory (Some []) 0 0) (Addr 7%positive)
           eq_refl eq_refl eq_refl).
Defined.

(** Where the invariant does hold: on a store whose pattern array is
    allocated with at least [capacity] slots, with [0 <= count <= capacity]
    and a capacity of at least 1, every sequence of Add and
    AnalyzeComplexity operations (on live patterns) whose doublings stay
    within the [int] range succeeds, and after every prefix of it the store
    again satisfies [capacity >= count] and is properly allocated. *)
Lemma operations_keep_invariant_from_capacity_one
    (ops : list store_op) (w : world) (l : loc) (m : CodeMemory) (k : nat) :
  memory_objs w !! l = Some m ->
  allocated m ->
  1 <= capacity m ->
  2 * (count m + Z.of_nat (length (List.filter is_add ops)) - 1) <= INT_MAX ->
  Forall (op_ready w) ops ->
  exists wk mk,
    apply_ops (Addr l) (take k ops) w = Done (tt, wk) /\
    memory_objs wk !! l = Some mk /\
    invariant mk /\
    allocated mk.
Proof.
  intros Hl Halloc Hcap Hmax Hready.
  destruct (apply_ops_allocated (take k ops) w l m Hl Halloc Hcap)
    as (wk & mk & Hrun & Hlk & Hallock & _).
  - pose proof (filter_take_length is_add ops k). lia.
  - by apply Forall_take.
  - exists wk, mk. repeat split; try done.
    destruct Hallock as (b & _ & Hc & _). unfold invariant. lia.
Qed.

(** ** Insertion order *)




(** ** The program *)

(** [main] runs one session on its store and returns 0; the store, which
    holds no pattern, and the workbench are released at the end. *)
Lemma main_runs :
  exists w',
    main empty_world = Done (0, w') /\
    memory_objs w' = ∅ /\ workbench_objs w' = ∅ /\ pattern_objs w' = ∅.
Proof. eexists. split; [vm_compute; reflexivity|]. by repeat split. Qed.

(** * Further properties of the workbench and the pipeline *)




Lemma string_append_assoc (a b c : string) : (a +:+ b) +:+ c = a +:+ (b +:+ c).
Proof.
  induction a as [|x a IH]; [reflexivity|].
  change (String x ((a +:+ b) +:+ c) = String x (a +:+ (b +:+ c))).
  by rewrite IH.
Qed.

Lemma string_append_nil_r (a : string) : a +:+ EmptyString = a.
Proof.
  induction a as [|x a IH]; [reflexivity|].
  change (String x (a +:+ EmptyString) = String x a). by rewrite IH.
Qed.

Lemma commits_heap changes : forall w l wb cur,
  workbench_objs w !! l = Some wb ->
  current_code wb = Some cur ->
  exists w',
    commits (Addr l) changes w = Done (tt, w') /\
    workbench_objs w' =
      <[l := mkCodeWorkbench (code_request wb)
               (Some (cur +:+ concat_all changes)) (suggested_code wb)]>
        (workbench_objs w) /\
    same_store w w'.
Proof.
  induction changes as [|c changes IH]; intros w l wb cur Hl Hcur.
  - exists w. split; [reflexivity|]. split; [|apply same_store_refl].
    cbn. rewrite string_append_nil_r. symmetry. apply insert_id.
    rewrite Hl, <- Hcur. by destruct wb.
  - rewrite commits_cons.
    rewrite (bind_done _ _ _ _ _ (commit_code_change_live w l wb Hl c)).
    rewrite Hcur. cbn [default from_option id].
    match goal with
    | |- context [commits _ _ ?w1] =>
        destruct (IH w1 l (mkCodeWorkbench (code_request wb) (Some (cur +:+ c))
                             (suggested_code wb)) (cur +:+ c)
                    (lookup_insert_eq _ _ _) eq_refl)
          as (w' & Hrun & Hwb & [Hm Hp])
    end.
    cbn [workbench_objs code_request suggested_code memory_objs pattern_objs]
      in Hwb, Hm, Hp.
    exists w'. split; [exact Hrun|]. split; [|by split].
    rewrite Hwb, insert_insert_eq. cbn [concat_all foldr].
    by rewrite string_append_assoc.
Qed.

(** X2.  Splitting a change over several [commit_code_change] calls makes
    no difference: on a live workbench, committing the texts of a non-empty
    list one after the other leaves the same workbench as committing their
    concatenation once, namely the old current code (nothing, if it was
    null) followed by all the texts.  Only [current_code] of that workbench
    changes; the suggestion, the request, the other workbenches and the
    store stay. *)
Theorem X2_commits_equal_one_commit_of_the_concatenation
    (changes : list string) (w : world) (l : loc) (wb : CodeWorkbench) :
  workbench_objs w !! l = Some wb ->
  changes <> [] ->
  exists w1 w2,
    commits (Addr l) changes w = Done (tt, w1) /\
    commit_code_change (Addr l) (concat_all changes) w = Done (tt, w2) /\
    workbench_objs w1 = workbench_objs w2 /\
    workbench_objs w1 =
      <[l := mkCodeWorkbench (code_request wb)
               (Some (default EmptyString (current_code wb) +:+ concat_all changes))
               (suggested_code wb)]>
        (workbench_objs w) /\
    same_store w w1.
Proof.
  intros Hl Hne. destruct changes as [|c changes]; [done|].
  rewrite commits_cons.
  rewrite (bind_done _ _ _ _ _ (commit_code_change_live w l wb Hl c)).
  match goal with
  | |- context [commits _ _ ?w1] =>
      destruct (commits_heap changes w1 l
                  (mkCodeWorkbench (code_request wb)
                     (Some (default EmptyString (current_code wb) +:+ c))
                     (suggested_code wb))
                  (default EmptyString (current_code wb) +:+ c)
                  (lookup_insert_eq _ _ _) eq_refl)
        as (w' & Hrun & Hwb & [Hm Hp])
  end.
  cbn [workbench_objs code_request suggested_code memory_objs pattern_objs]
    in Hwb, Hm, Hp.
  exists w'. eexists. split; [exact Hrun|].
  split; [by apply commit_code_change_live|].
  cbn [workbench_objs concat_all foldr].
  rewrite Hwb, insert_insert_eq, string_append_assoc.
  split; [reflexivity|]. split; [reflexivity|]. by split.
Qed.

Lemma X2_witness :
  workbench_objs
    (mkWorld ∅ ∅ {[1%positive := mkCodeWorkbench (Some "sort") (Some "int ") None]} [])
    !! 1%positive = Some (mkCodeWorkbench (Some "sort") (Some "int ") None) /\
  ["x"; " = "; "1;"] <> [] /\
  exists w1 w2,
    commits (Addr 1%positive) ["x"; " = "; "1;"]
      (mkWorld ∅ ∅ {[1%positive := mkCodeWorkbench (Some "sort") (Some "int ") None]} [])
      = Done (tt, w1) /\
    commit_code_change (Addr 1%positive) "x = 1;"
      (mkWorld ∅ ∅ {[1%positive := mkCodeWorkbench (Some "sort") (Some "int ") None]} [])
      = Done (tt, w2) /\
    workbench_objs w1 = workbench_objs w2 /\
    workbench_objs w1 =
      <[1%positive := mkCodeWorkbench (Some "sort") (Some "int x = 1;") None]>
        {[1%positive := mkCodeWorkbench (Some "sort") (Some "int ") None]} /\
    same_store
      (mkWorld ∅ ∅ {[1%positive := mkCodeWorkbench (Some "sort") (Some "int ") None]} [])
      w1.
Proof.
  split; [reflexivity|]. split; [discriminate|].
  exact (X2_commits_equal_one_commit_of_the_concatenation ["x"; " = "; "1;"]
           (mkWorld ∅ ∅
              {[1%positive := mkCodeWorkbench (Some "sort") (Some "int ") None]} [])
           1%positive (mkCodeWorkbench (Some "sort") (Some "int ") None) eq_refl
           ltac:(discriminate)).
Defined.

(** ** How often a suggestion can be refined *)

Lemma nest_shift n s : nest n (refine_marker +:+ s) = refine_marker +:+ nest n s.
Proof. induction n as [|n IH]; cbn [nest]; [reflexivity|by rewrite IH]. Qed.

Lemma refines_succ n workbench memory w :
  refines (S n) workbench memory w =
  bind (refine_code_suggestion workbench memory)
       (fun _ => refines n workbench memory) w.
Proof. reflexivity. Qed.

(** X3.  Refining [n] times works as long as the result fits the
    1024-byte buffer: on a live workbench whose suggestion [s] satisfies
    [length s + 25 * n <= 1023], [n] successive refinements all succeed and
    leave the marker prepended [n] times to [s]; the request, the current
    code, the other workbenches and the store stay. *)
Theorem X3_refinements_that_fit_nest_the_marker
    (n : nat) (w : world) (l : loc) (wb : CodeWorkbench) (memory : ptr)
    (s : string) :
  workbench_objs w !! l = Some wb ->
  suggested_code wb = Some s ->
  (String.length s + 25 * n <= 1023)%nat ->
  exists w',
    refines n (Addr l) memory w = Done (tt, w') /\
    workbench_objs w' =
      <[l := mkCodeWorkbench (code_request wb) (current_code wb)
               (Some (nest n s))]> (workbench_objs w) /\
    String.length (nest n s) = (String.length s + 25 * n)%nat /\
    same_store w w'.
Proof.
  revert w wb s. induction n as [|n IH]; intros w wb s Hl Hs Hlen.
  - exists w. split; [reflexivity|]. cbn [nest].
    split; [|split; [lia|apply same_store_refl]].
    symmetry. apply insert_id. rewrite Hl, <- Hs. by destruct wb.
  - rewrite refines_succ.
    rewrite (bind_done _ _ _ _ _
               (refine_code_suggestion_live w l wb Hl memory s Hs ltac:(lia))).
    match goal with
    | |- context [refines _ _ _ ?w1] =>
        destruct (IH w1 (mkCodeWorkbench (code_request wb) (current_code wb)
                           (Some (refine_marker +:+ s))) (refine_marker +:+ s)
                    (lookup_insert_eq _ _ _) eq_refl)
          as (w' & Hrun & Hwb & Hlen' & [Hm Hp])
    end.
    { rewrite string_length_append.
      change (String.length refine_marker) with 25%nat. lia. }
    cbn [workbench_objs code_request current_code memory_objs pattern_objs]
      in Hwb, Hm, Hp.
    exists w'. split; [exact Hrun|].
    rewrite nest_shift in Hwb, Hlen'. cbn [nest].
    split; [by rewrite Hwb, insert_insert_eq|]. split; [|by split].
    rewrite Hlen', string_length_append.
    change (String.length refine_marker) with 25%nat. lia.
Qed.

Lemma X3_witness :
  workbench_objs
    (mkWorld ∅ ∅ {[1%positive := mkCodeWorkbench (Some "sort") None (Some "S")]} [])
    !! 1%positive = Some (mkCodeWorkbench (Some "sort") None (Some "S")) /\
  suggested_code (mkCodeWorkbench (Some "sort") None (Some "S")) = Some "S" /\
  (String.length "S" + 25 * 2 <= 1023)%nat /\
  exists w',
    refines 2 (Addr 1%positive) NULL
      (mkWorld ∅ ∅ {[1%positive := mkCodeWorkbench (Some "sort") None (Some "S")]} [])
      = Done (tt, w') /\
    workbench_objs w' =
      <[1%positive := mkCodeWorkbench (Some "sort") None
                        (Some (refine_marker +:+ refine_marker +:+ "S"))]>
        {[1%positive := mkCodeWorkbench (Some "sort") None (Some "S")]} /\
    String.length (refine_marker +:+ refine_marker +:+ "S") = 51%nat /\
    same_store
      (mkWorld ∅ ∅ {[1%positive := mkCodeWorkbench (Some "sort") None (Some "S")]} [])
      w'.
Proof.
  split; [reflexivity|]. split; [reflexivity|]. split; [cbn; lia|].
  exact (X3_refinements_that_fit_nest_the_marker 2
           (mkWorld ∅ ∅
              {[1%positive := mkCodeWorkbench (Some "sort") None (Some "S")]} [])
           1%positive (mkCodeWorkbench (Some "sort") None (Some "S")) NULL "S"
           eq_refl eq_refl ltac:(cbn; lia)).
Defined.

(** X4.  One refinement too many overflows: on a live workbench with
    suggestion [s], if [n >= 1] and [length s + 25 * n > 1023], then [n]
    successive refinements end in a write past the end of the 1024-byte
    buffer [refined]. *)
Theorem X4_refinements_that_do_not_fit_overflow
    (n : nat) (w : world) (l : loc) (wb : CodeWorkbench) (memory : ptr)
    (s : string) :
  workbench_objs w !! l = Some wb ->
  suggested_code wb = Some s ->
  (1 <= n)%nat ->
  (1023 < String.length s + 25 * n)%nat ->
  refines n (Addr l) memory w = Undefined BufferOverflow.
Proof.
  revert w wb s. induction n as [|n IH]; intros w wb s Hl Hs Hn Hlen; [lia|].
  rewrite refines_succ.
  destruct (decide (String.length s <= 998)%nat) as [Hfit|Hbig].
  - rewrite (bind_done _ _ _ _ _
               (refine_code_suggestion_live w l wb Hl memory s Hs Hfit)).
    apply (IH _ (mkCodeWorkbench (code_request wb) (current_code wb)
                   (Some (refine_marker +:+ s))) (refine_marker +:+ s)
             (lookup_insert_eq _ _ _) eq_refl); [lia|].
    rewrite string_length_append.
    change (String.length refine_marker) with 25%nat. lia.
  - apply bind_undefined.
    apply (refine_code_suggestion_overflow w l wb Hl memory s Hs). lia.
Qed.

Lemma X4_witness :
  workbench_objs
    (mkWorld ∅ ∅ {[1%positive := mkCodeWorkbench (Some "sort") None (Some "S")]} [])
    !! 1%positive = Some (mkCodeWorkbench (Some "sort") None (Some "S")) /\
  suggested_code (mkCodeWorkbench (Some "sort") None (Some "S")) = Some "S" /\
  (1 <= 41)%nat /\
  (1023 < String.length "S" + 25 * 41)%nat /\
  refines 41 (Addr 1%positive) NULL
    (mkWorld ∅ ∅ {[1%positive := mkCodeWorkbench (Some "sort") None (Some "S")]} [])
  = Undefined BufferOverflow.
Proof.
  split; [reflexivity|]. split; [reflexivity|]. split; [lia|].
  split; [cbn; lia|].
  exact (X4_refinements_that_do_not_fit_overflow 41
           (mkWorld ∅ ∅
              {[1%positive := mkCodeWorkbench (Some "sort") None (Some "S")]} [])
           1%positive (mkCodeWorkbench (Some "sort") None (Some "S")) NULL "S"
           eq_refl eq_refl ltac:(lia) ltac:(cbn; lia)).
Defined.

(** ** Order of the pipeline steps *)

(** X5.  Refining needs a suggestion: on a live workbench whose
    [suggested_code] is still null (a workbench on which nothing was
    generated yet), [refine_code_suggestion] hands the null pointer to
    [strcat], which is undefined; nothing is written. *)
Theorem X5_refine_without_suggestion_is_undefined
    (w : world) (l : loc) (wb : CodeWorkbench) (memory : ptr) :
  workbench_objs w !! l = Some wb ->
  suggested_code wb = None ->
  refine_code_suggestion (Addr l) memory w = Undefined NullDereference.
Proof.
  intros Hl Hs.
  unfold refine_code_suggestion, load_workbench, deref, emit, arg_s, bind.
  cbn. by rewrite Hl, Hs.
Qed.

Lemma X5_witness :
  workbench_objs
    (mkWorld ∅ ∅ {[1%positive := mkCodeWorkbench (Some "sort") None None]} [])
    !! 1%positive = Some (mkCodeWorkbench (Some "sort") None None) /\
  suggested_code (mkCodeWorkbench (Some "sort") None None) = None /\
  refine_code_suggestion (Addr 1%positive) NULL
    (mkWorld ∅ ∅ {[1%positive := mkCodeWorkbench (Some "sort") None None]} [])
  = Undefined NullDereference.
Proof.
  split; [reflexivity|]. split; [reflexivity|].
  exact (X5_refine_without_suggestion_is_undefined
           (mkWorld ∅ ∅ {[1%positive := mkCodeWorkbench (Some "sort") None None]} [])
           1%positive (mkCodeWorkbench (Some "sort") None None) NULL
           eq_refl eq_refl).
Defined.

(** X6.  Generating is idempotent on the heap, and it discards what was
    there: on a live workbench, whatever its suggestion was (none, a
    generated or a refined one), a second [generate_code_suggestion] leaves
    every workbench exactly as the first one did. *)
Theorem X6_generate_twice_is_generate_once
    (w : world) (l : loc) (wb : CodeWorkbench) (memory : ptr) :
  workbench_objs w !! l = Some wb ->
  exists w1 w2,
    generate_code_suggestion (Addr l) memory w = Done (tt, w1) /\
    generate_code_suggestion (Addr l) memory w1 = Done (tt, w2) /\
    workbench_objs w2 = workbench_objs w1 /\
    same_store w1 w2.
Proof.
  intros Hl. eexists. eexists.
  split; [by apply generate_code_suggestion_live|].
  split.
  { eapply generate_code_suggestion_live. cbn [workbench_objs].
    apply lookup_insert_eq. }
  cbn [workbench_objs code_request current_code].
  split; [by rewrite insert_insert_eq|by split].
Qed.

Lemma X6_witness :
  workbench_objs
    (mkWorld ∅ ∅ {[1%positive := mkCodeWorkbench (Some "sort") None (Some "old")]} [])
    !! 1%positive = Some (mkCodeWorkbench (Some "sort") None (Some "old")) /\
  exists w1 w2,
    generate_code_suggestion (Addr 1%positive) NULL
      (mkWorld ∅ ∅ {[1%positive := mkCodeWorkbench (Some "sort") None (Some "old")]} [])
      = Done (tt, w1) /\
    generate_code_suggestion (Addr 1%positive) NULL w1 = Done (tt, w2) /\
    workbench_objs w2 = workbench_objs w1 /\
    same_store w1 w2.
Proof.
  split; [reflexivity|].
  exact (X6_generate_twice_is_generate_once
           (mkWorld ∅ ∅
              {[1%positive := mkCodeWorkbench (Some "sort") None (Some "old")]} [])
           1%positive (mkCodeWorkbench (Some "sort") None (Some "old")) NULL
           eq_refl).
Defined.

(** X7.  What [orchestrate_coding_session] commits does not depend on the
    workbench it is given: for every live workbench with a request,
    whatever its request text, its accumulated current code and its
    previous suggestion, the session succeeds, commits once, and the
    committed content is the same fixed text (the marker followed by the
    generated template); the workbench is released, the other workbenches
    and the store are untouched. *)
Theorem X7_orchestrate_commits_a_fixed_text
    (w : world) (l : loc) (wb : CodeWorkbench) (memory : ptr) (r : string) :
  workbench_objs w !! l = Some wb ->
  code_request wb = Some r ->
  exists w' evs,
    orchestrate_coding_session (Addr l) memory w = Done (tt, w') /\
    workbench_objs w' = delete l (workbench_objs w) /\
    same_store w w' /\
    trace w' = trace w ++ evs /\
    List.filter is_ledger_commit evs =
      [CallLedgerCommit
         ("Refined code suggestion:" +:+ nl +:+
          "Here's a suggestion based on your request:" +:+ nl +:+
          "/* Your generated code here */")
         "Final Suggestion"].
Proof.
  intros Hl Hr. eexists. eexists.
  split; [by apply (orchestrate_coding_session_live w l wb memory r)|].
  cbn [workbench_objs trace].
  split; [reflexivity|]. split; [by split|]. split; [reflexivity|].
  unfold orchestrate_events. by destruct (suggested_code wb).
Qed.

Lemma X7_witness :
  workbench_objs
    (mkWorld ∅ ∅
       {[1%positive := mkCodeWorkbench (Some "sort") (Some "int x;") (Some "old")]} [])
    !! 1%positive
    = Some (mkCodeWorkbench (Some "sort") (Some "int x;") (Some "old")) /\
  code_request (mkCodeWorkbench (Some "sort") (Some "int x;") (Some "old"))
    = Some "sort" /\
  exists w' evs,
    orchestrate_coding_session (Addr 1%positive) NULL
      (mkWorld ∅ ∅
         {[1%positive := mkCodeWorkbench (Some "sort") (Some "int x;") (Some "old")]}
         [])
      = Done (tt, w') /\
    workbench_objs w' =
      delete 1%positive
        {[1%positive := mkCodeWorkbench (Some "sort") (Some "int x;") (Some "old")]} /\
    same_store
      (mkWorld ∅ ∅
         {[1%positive := mkCodeWorkbench (Some "sort") (Some "int x;") (Some "old")]}
         [])
      w' /\
    trace w' = [] ++ evs /\
    List.filter is_ledger_commit evs =
      [CallLedgerCommit
         ("Refined code suggestion:" +:+ nl +:+
          "Here's a suggestion based on your request:" +:+ nl +:+
          "/* Your generated code here */")
         "Final Suggestion"].
Proof.
  split; [reflexivity|]. split; [reflexivity|].
  exact (X7_orchestrate_commits_a_fixed_text
           (mkWorld ∅ ∅
              {[1%positive := mkCodeWorkbench (Some "sort") (Some "int x;") (Some "old")]}
              [])
           1%positive (mkCodeWorkbench (Some "sort") (Some "int x;") (Some "old"))
           NULL "sort" eq_refl eq_refl).
Defined.

(** X8.  A session releases all it allocates: for every request and store
    pointer, afterwards the heap of workbenches is what it was before (the
    session's workbench is gone, no other is touched), and of the strings
    the session copied with [strdup], the request, the generated and the
    refined suggestion, each is freed exactly once; the null
    [current_code] is passed to [free] once, which does nothing. *)
Theorem X8_session_frees_what_it_allocates
    (request : string) (memory : ptr) (w : world) :
  exists workbench w' evs,
    session request memory w = Done (workbench, w') /\
    workbench_objs w' = workbench_objs w /\
    trace w' = trace w ++ evs /\
    List.filter is_free_text evs =
      [FreeText (Some generated_text);
       FreeText (Some request);
       FreeText None;
       FreeText (Some refined_text)] /\
    List.filter
      (fun e => match e with CallUpdateSuggestion _ _ | CallInit _ => true
                | _ => false end) evs =
      [CallInit request;
       CallUpdateSuggestion workbench generated_text;
       CallUpdateSuggestion workbench refined_text].
Proof.
  eexists. eexists. eexists.
  split; [apply session_run|].
  split; [reflexivity|]. split; [reflexivity|]. split; reflexivity.
Qed.

Lemma free_code_memory_empty w l m :
  memory_objs w !! l = Some m ->
  count m <= 0 ->
  free_code_memory (Addr l) w = Done (tt, set_memory_objs (delete l) w).
Proof.
  intros Hl Hc. unfold free_code_memory.
  rewrite (bind_done _ _ _ _ _ (load_memory_live _ _ _ Hl)).
  replace (Z.to_nat (count m)) with 0%nat by lia.
  cbn [seq map]. rewrite (bind_done _ _ _ _ _ (run_nil w)).
  unfold free_obj. by rewrite Hl.
Qed.

(** X9.  The program as a whole leaks nothing: from any initial heap,
    [main] returns 0, and every object it allocated (the store, the
    workbench and its strings) is released again, so that the three heaps
    are what they were; it prints the five lines of one session. *)
Theorem X9_main_returns_zero_and_leaks_nothing (w : world) :
  exists w' evs,
    main w = Done (0, w') /\
    memory_objs w' = memory_objs w /\
    workbench_objs w' = workbench_objs w /\
    pattern_objs w' = pattern_objs w /\
    trace w' = trace w ++ evs /\
    List.filter (fun e => match e with Stdout _ => true | _ => false end) evs =
      [Stdout ("Starting coding session for request: " +:+
               "Create a function to sort an array" +:+ nl);
       Stdout ("Initial suggestion:" +:+ nl +:+ generated_text +:+ nl);
       Stdout ("Refined suggestion:" +:+ nl +:+ refined_text +:+ nl);
       Stdout ("Committing code to blockchain: Final Suggestion - "
               +:+ refined_text +:+ nl);
       Stdout ("Coding session completed." +:+ nl)].
Proof.
  unfold main, malloc_memory.
  erewrite bind_done by reflexivity.
  set (lm := fresh (dom (memory_objs w))).
  assert (memory_objs w !! lm = None) as Hfresh
    by apply not_elem_of_dom, is_fresh.
  unfold init_code_workbench.
  erewrite bind_done.
  2:{ erewrite bind_done by reflexivity. reflexivity. }
  cbn [workbench_objs set_memory_objs set_trace].
  set (lw := fresh (dom (workbench_objs w))).
  erewrite bind_done.
  2:{ eapply orchestrate_coding_session_live;
        [apply lookup_insert_eq|reflexivity]. }
  cbn [pattern_objs memory_objs workbench_objs trace set_workbench_objs set_trace].
  erewrite bind_done.
  2:{ eapply (free_code_memory_empty _ lm (mkCodeMemory None 0 10));
        [apply lookup_insert_eq|cbn; lia]. }
  unfold ret, set_memory_objs.
  cbn [pattern_objs memory_objs workbench_objs trace].
  eexists. eexists. split; [reflexivity|].
  cbn [pattern_objs memory_objs workbench_objs trace].
  split; [by apply delete_insert_id|].
  split; [apply delete_insert_id, not_elem_of_dom, is_fresh|].
  split; [reflexivity|].
  split; [rewrite <- app_assoc; reflexivity|].
  reflexivity.
Qed.

(** * Further properties of the patterns and the store *)

(** X11.  [analyze_code_complexity] on a live pattern adds
    [CODE_COMPLEXITY_FACTOR] (1.0, in double arithmetic) to its complexity
    in place: the pointer stays valid, snippet and language are kept, and
    no other pattern changes.  The stores are not written, so a store that
    holds this pointer sees the new complexity. *)
Theorem X11_analyze_adds_the_factor_in_place
    (w : world) (pl : loc) (v : CodePattern) :
  pattern_objs w !! pl = Some v ->
  exists w',
    analyze_code_complexity (Addr pl) w = Done (tt, w') /\
    pattern_objs w' !! pl =
      Some (mkCodePattern (code_snippet v) (language v)
              (complexity v + 1)%float) /\
    (forall l', l' <> pl -> pattern_objs w' !! l' = pattern_objs w !! l') /\
    memory_objs w' = memory_objs w /\
    workbench_objs w' = workbench_objs w /\
    trace w' = trace w.
Proof.
  intros Hv. eexists. split; [by apply analyze_code_complexity_live|].
  cbn [pattern_objs set_pattern_objs].
  split; [apply lookup_insert_eq|].
  split; [|by repeat split].
  intros l' Hne. by rewrite lookup_insert_ne.
Qed.

Lemma X11_witness :
  pattern_objs
    (mkWorld {[1%positive := mkCodePattern (Some "int x;") (Some "C") 2.5%float]}
       ∅ ∅ [])
    !! 1%positive = Some (mkCodePattern (Some "int x;") (Some "C") 2.5%float) /\
  exists w',
    analyze_code_complexity (Addr 1%positive)
      (mkWorld {[1%positive := mkCodePattern (Some "int x;") (Some "C") 2.5%float]}
         ∅ ∅ [])
      = Done (tt, w') /\
    pattern_objs w' !! 1%positive =
      Some (mkCodePattern (Some "int x;") (Some "C") 3.5%float) /\
    (forall l', l' <> 1%positive ->
       pattern_objs w' !! l' =
       pattern_objs
         (mkWorld {[1%positive := mkCodePattern (Some "int x;") (Some "C") 2.5%float]}
            ∅ ∅ [])
         !! l') /\
    memory_objs w' = ∅ /\
    workbench_objs w' = ∅ /\
    trace w' = [].
Proof.
  split; [reflexivity|].
  exact (X11_analyze_adds_the_factor_in_place
           (mkWorld {[1%positive := mkCodePattern (Some "int x;") (Some "C") 2.5%float]}
              ∅ ∅ [])
           1%positive (mkCodePattern (Some "int x;") (Some "C") 2.5%float) eq_refl).
Defined.

(** ** Releasing patterns *)

Lemma free_code_pattern_live w pl v :
  pattern_objs w !! pl = Some v ->
  free_code_pattern (Addr pl) w =
  Done (tt, mkWorld (delete pl (pattern_objs w)) (memory_objs w) (workbench_objs w)
              (trace w ++ [FreeText (code_snippet v); FreeText (language v)])).
Proof.
  intros Hv.
  unfold free_code_pattern, load_pattern, deref, free_text, emit, free_obj, bind.
  rewrite Hv. cbn. rewrite Hv. unfold set_pattern_objs. cbn.
  by rewrite <- app_assoc.
Qed.

Lemma free_code_pattern_released w pl :
  pattern_objs w !! pl = None ->
  free_code_pattern (Addr pl) w = Undefined DanglingPointer.
Proof.
  intros Hv. unfold free_code_pattern, load_pattern, deref, bind. by rewrite Hv.
Qed.

Lemma analyze_code_complexity_released w pl :
  pattern_objs w !! pl = None ->
  analyze_code_complexity (Addr pl) w = Undefined DanglingPointer.
Proof.
  intros Hv. unfold analyze_code_complexity, load_pattern, deref, bind.
  by rewrite Hv.
Qed.

(** X12.  A released pattern must not be used again: after
    [free_code_pattern] on a live pattern the pattern is gone (its two
    strings and the struct are freed, nothing else changes), and a second
    [free_code_pattern] or an [analyze_code_complexity] on the same pointer
    is a use after free; on the null pointer both functions dereference
    null. *)
Theorem X12_released_pattern_cannot_be_used
    (w : world) (pl : loc) (v : CodePattern) :
  pattern_objs w !! pl = Some v ->
  exists w',
    free_code_pattern (Addr pl) w = Done (tt, w') /\
    pattern_objs w' = delete pl (pattern_objs w) /\
    memory_objs w' = memory_objs w /\
    workbench_objs w' = workbench_objs w /\
    trace w' = trace w ++ [FreeText (code_snippet v); FreeText (language v)] /\
    free_code_pattern (Addr pl) w' = Undefined DanglingPointer /\
    analyze_code_complexity (Addr pl) w' = Undefined DanglingPointer /\
    free_code_pattern NULL w = Undefined NullDereference /\
    analyze_code_complexity NULL w = Undefined NullDereference.
Proof.
  intros Hv. eexists. split; [by apply free_code_pattern_live|].
  cbn [pattern_objs memory_objs workbench_objs trace].
  repeat (split; [reflexivity|]).
  split; [apply free_code_pattern_released; cbn; apply lookup_delete_eq|].
  split; [apply analyze_code_complexity_released; cbn; apply lookup_delete_eq|].
  by split.
Qed.

Lemma X12_witness :
  pattern_objs
    (mkWorld {[1%positive := mkCodePattern (Some "int x;") (Some "C") 1%float]}
       ∅ ∅ [])
    !! 1%positive = Some (mkCodePattern (Some "int x;") (Some "C") 1%float) /\
  exists w',
    free_code_pattern (Addr 1%positive)
      (mkWorld {[1%positive := mkCodePattern (Some "int x;") (Some "C") 1%float]}
         ∅ ∅ [])
      = Done (tt, w') /\
    pattern_objs w' =
      delete 1%positive
        {[1%positive := mkCodePattern (Some "int x;") (Some "C") 1%float]} /\
    memory_objs w' = ∅ /\
    workbench_objs w' = ∅ /\
    trace w' = [] ++ [FreeText (Some "int x;"); FreeText (Some "C")] /\
    free_code_pattern (Addr 1%positive) w' = Undefined DanglingPointer /\
    analyze_code_complexity (Addr 1%positive) w' = Undefined DanglingPointer /\
    free_code_pattern NULL
      (mkWorld {[1%positive := mkCodePattern (Some "int x;") (Some "C") 1%float]}
         ∅ ∅ [])
      = Undefined NullDereference /\
    analyze_code_complexity NULL
      (mkWorld {[1%positive := mkCodePattern (Some "int x;") (Some "C") 1%float]}
         ∅ ∅ [])
      = Undefined NullDereference.
Proof.
  split; [reflexivity|].
  exact (X12_released_pattern_cannot_be_used
           (mkWorld {[1%positive := mkCodePattern (Some "int x;") (Some "C") 1%float]}
              ∅ ∅ [])
           1%positive (mkCodePattern (Some "int x;") (Some "C") 1%float) eq_refl).
Defined.

(** ** Tearing the store down *)

Lemma free_patterns_cons p ps w :
  free_patterns (p :: ps) w =
  bind (free_code_pattern p) (fun _ => free_patterns ps) w.
Proof. reflexivity. Qed.

Lemma free_code_pattern_done p w w1 :
  free_code_pattern p w = Done (tt, w1) ->
  exists pl v,
    p = Addr pl /\ pattern_objs w !! pl = Some v /\
    pattern_objs w1 = delete pl (pattern_objs w) /\
    memory_objs w1 = memory_objs w /\
    workbench_objs w1 = workbench_objs w.
Proof.
  intros H. destruct p as [|pl]; [discriminate|].
  destruct (pattern_objs w !! pl) as [v|] eqn:Hv.
  - rewrite (free_code_pattern_live w pl v Hv) in H. revert H. intros [= <-].
    by exists pl, v.
  - by rewrite (free_code_pattern_released w pl Hv) in H.
Qed.

Lemma live_pattern_after_free w pl v q :
  pattern_objs w !! pl = Some v ->
  live_pattern w q -> q <> Addr pl ->
  live_pattern
    (mkWorld (delete pl (pattern_objs w)) (memory_objs w) (workbench_objs w)
       (trace w ++ [FreeText (code_snippet v); FreeText (language v)])) q.
Proof.
  intros _ (ql & -> & Hq) Hne. exists ql. split; [reflexivity|].
  cbn. rewrite lookup_delete_ne; [exact Hq|]. congruence.
Qed.

Lemma free_patterns_ok ps : forall w,
  NoDup ps ->
  Forall (live_pattern w) ps ->
  exists w',
    free_patterns ps w = Done (tt, w') /\
    (forall l', pattern_objs w' !! l' =
                if decide (Addr l' ∈ ps) then None else pattern_objs w !! l') /\
    memory_objs w' = memory_objs w /\
    workbench_objs w' = workbench_objs w.
Proof.
  induction ps as [|p ps IH]; intros w Hnd Hlive.
  - exists w. split; [reflexivity|]. split; [|by split].
    intros l'. rewrite decide_False; [reflexivity|]. by intros ?%elem_of_nil.
  - apply NoDup_cons in Hnd as [Hp Hnd].
    apply Forall_cons in Hlive as [(pl & -> & [v Hv]) Hlive].
    rewrite free_patterns_cons.
    rewrite (bind_done _ _ _ _ _ (free_code_pattern_live w pl v Hv)).
    match goal with
    | |- context [free_patterns _ ?w1] =>
        destruct (IH w1 Hnd) as (w' & Hrun & Hlook & Hm & Hwb)
    end.
    { rewrite Forall_forall in Hlive |- *. intros q Hq.
      apply live_pattern_after_free; [exact Hv|by apply Hlive|].
      intros ->. contradiction. }
    cbn [pattern_objs memory_objs workbench_objs] in Hlook, Hm, Hwb.
    exists w'. split; [exact Hrun|]. split; [|by split].
    intros l'. rewrite Hlook.
    destruct (decide (l' = pl)) as [->|Hne].
    + rewrite decide_False by done.
      rewrite decide_True by (apply elem_of_cons; by left).
      apply lookup_delete_eq.
    + rewrite lookup_delete_ne by done.
      destruct (decide (Addr l' ∈ ps)) as [Hin|Hnin].
      * rewrite decide_True by (apply elem_of_cons; by right). reflexivity.
      * rewrite decide_False; [reflexivity|].
        intros [?|?]%elem_of_cons; [congruence|contradiction].
Qed.

Lemma free_patterns_dead ps : forall w,
  Forall (fun p => p <> NULL) ps ->
  Exists (fun p => ~ live_pattern w p) ps ->
  free_patterns ps w = Undefined DanglingPointer.
Proof.
  induction ps as [|p ps IH]; intros w Hnn Hdead.
  - by apply Exists_nil in Hdead.
  - apply Forall_cons in Hnn as [Hp Hnn].
    destruct p as [|pl]; [done|]. rewrite free_patterns_cons.
    destruct (pattern_objs w !! pl) as [v|] eqn:Hv.
    + rewrite (bind_done _ _ _ _ _ (free_code_pattern_live w pl v Hv)).
      apply IH; [exact Hnn|].
      apply Exists_cons in Hdead as [Hd|Hd].
      { exfalso. apply Hd. exists pl. split; [reflexivity|by eexists]. }
      eapply Exists_impl; [exact Hd|].
      intros q Hq (ql & -> & Hlive). apply Hq. exists ql. split; [reflexivity|].
      cbn in Hlive. destruct (decide (ql = pl)) as [->|Hne].
      * by rewrite lookup_delete_eq in Hlive; destruct Hlive.
      * by rewrite lookup_delete_ne in Hlive.
    + apply bind_undefined. by apply free_code_pattern_released.
Qed.

Lemma free_patterns_dup ps : forall w,
  Forall (live_pattern w) ps ->
  ~ NoDup ps ->
  free_patterns ps w = Undefined DanglingPointer.
Proof.
  induction ps as [|p ps IH]; intros w Hlive Hdup.
  - exfalso. apply Hdup. constructor.
  - apply Forall_cons in Hlive as [(pl & -> & [v Hv]) Hlive].
    rewrite free_patterns_cons.
    rewrite (bind_done _ _ _ _ _ (free_code_pattern_live w pl v Hv)).
    destruct (decide (Addr pl ∈ ps)) as [Hin|Hnin].
    + apply free_patterns_dead.
      * eapply Forall_impl; [exact Hlive|]. by intros q (ql & -> & _).
      * apply Exists_exists. exists (Addr pl). split; [exact Hin|].
        intros (ql & [= <-] & Hq). cbn in Hq.
        rewrite lookup_delete_eq in Hq. by destruct Hq.
    + apply IH.
      * rewrite Forall_forall in Hlive |- *. intros q Hq.
        apply live_pattern_after_free; [exact Hv|by apply Hlive|].
        intros ->. contradiction.
      * intros Hnd. apply Hdup. by apply NoDup_cons.
Qed.

(** The loop of [free_code_memory] frees the stored patterns first to
    last. *)
Lemma free_loop_patterns memory l m b ps : forall k w,
  memory = Addr l ->
  memory_objs w !! l = Some m ->
  patterns m = Some b ->
  (forall i p, ps !! i = Some p -> b !! (k + i)%nat = Some (Some p)) ->
  run (map (fun i : nat =>
              let* m := load_memory memory in
              let* p := lift (read_slot (patterns m) (Z.of_nat i)) in
              free_code_pattern p)
           (seq k (length ps))) w
  = free_patterns ps w.
Proof.
  induction ps as [|p ps IH]; intros k w -> Hl Hb Hslots; [reflexivity|].
  cbn [length seq map]. rewrite run_cons, free_patterns_cons.
  match goal with
  | |- bind ?body _ _ = _ =>
      assert (body w = free_code_pattern p w) as Hbody
  end.
  { rewrite (bind_done _ _ _ _ _ (load_memory_live _ _ _ Hl)).
    unfold read_slot. rewrite Hb, decide_True by lia. rewrite Nat2Z.id.
    rewrite <- (Nat.add_0_r k) at 1. rewrite (Hslots 0%nat p eq_refl).
    reflexivity. }
  destruct (free_code_pattern p w) as [[[] w1]|u] eqn:Hfree.
  - rewrite (bind_done _ _ _ _ _ Hbody), (bind_done _ _ _ _ _ Hfree).
    apply free_code_pattern_done in Hfree as (pl & v & _ & _ & _ & Hm & _).
    apply IH; [reflexivity|by rewrite Hm|exact Hb|].
    intros i q Hq. replace (S k + i)%nat with (k + S i)%nat by lia.
    by apply Hslots.
  - by rewrite (bind_undefined _ _ _ _ Hbody), (bind_undefined _ _ _ _ Hfree).
Qed.

Lemma free_code_memory_frees_stored w l m ps :
  memory_objs w !! l = Some m ->
  stored_patterns m = Done ps ->
  free_code_memory (Addr l) w =
  bind (free_patterns ps)
       (fun _ => free_obj memory_objs (fun l => set_memory_objs (delete l)) (Addr l))
       w.
Proof.
  intros Hl Hst. apply stored_patterns_spec in Hst as [Htake Hlen].
  unfold free_code_memory.
  rewrite (bind_done _ _ _ _ _ (load_memory_live _ _ _ Hl)).
  rewrite <- Hlen.
  match goal with
  | |- bind ?loop _ _ = _ => assert (loop w = free_patterns ps w) as Heq
  end.
  { destruct (patterns m) as [b|] eqn:Hb.
    - apply (free_loop_patterns (Addr l) l m b ps 0 w eq_refl Hl Hb).
      intros i p Hp. cbn [Nat.add default from_option id] in *.
      assert ((Some <$> ps) !! i = Some (Some p)) as Hi
        by (by rewrite list_lookup_fmap, Hp).
      rewrite <- Htake in Hi. by apply lookup_take_Some in Hi as [Hi _].
    - cbn [default from_option] in Htake. rewrite take_nil in Htake.
      destruct ps; [reflexivity|discriminate]. }
  unfold bind at 1. rewrite Heq. reflexivity.
Qed.

(** X13.  [free_code_memory] tears a store down completely when the
    patterns it holds are live and pairwise distinct: every stored pattern
    is released, the store itself is released, and nothing else is touched
    (patterns that are not in the store, other stores, workbenches). *)
Theorem X13_free_code_memory_releases_store_and_patterns
    (w : world) (l : loc) (m : CodeMemory) (ps : list ptr) :
  memory_objs w !! l = Some m ->
  stored_patterns m = Done ps ->
  NoDup ps ->
  Forall (live_pattern w) ps ->
  exists w',
    free_code_memory (Addr l) w = Done (tt, w') /\
    memory_objs w' = delete l (memory_objs w) /\
    (forall l', pattern_objs w' !! l' =
                if decide (Addr l' ∈ ps) then None else pattern_objs w !! l') /\
    workbench_objs w' = workbench_objs w.
Proof.
  intros Hl Hst Hnd Hlive.
  rewrite (free_code_memory_frees_stored w l m ps Hl Hst).
  destruct (free_patterns_ok ps w Hnd Hlive) as (w1 & Hrun & Hlook & Hm & Hwb).
  rewrite (bind_done _ _ _ _ _ Hrun).
  unfold free_obj. rewrite Hm, Hl. eexists. split; [reflexivity|].
  cbn [memory_objs pattern_objs workbench_objs set_memory_objs].
  split; [by rewrite Hm|]. by split.
Qed.

(** X14.  Add permits the same pattern twice, but teardown does not: if a
    pointer occurs more than once among the stored (live) patterns,
    [free_code_memory] frees it a second time, which is undefined (a double
    free). *)
Theorem X14_free_code_memory_double_frees_duplicates
    (w : world) (l : loc) (m : CodeMemory) (ps : list ptr) :
  memory_objs w !! l = Some m ->
  stored_patterns m = Done ps ->
  Forall (live_pattern w) ps ->
  ~ NoDup ps ->
  free_code_memory (Addr l) w = Undefined DanglingPointer.
Proof.
  intros Hl Hst Hlive Hdup.
  rewrite (free_code_memory_frees_stored w l m ps Hl Hst).
  apply bind_undefined. by apply free_patterns_dup.
Qed.

Lemma X13_witness :
  memory_objs
    (mkWorld
       {[1%positive := mkCodePattern (Some "a") (Some "C") 1%float;
         2%positive := mkCodePattern (Some "b") (Some "C") 2%float;
         3%positive := mkCodePattern (Some "c") (Some "C") 3%float]}
       {[1%positive :=
           mkCodeMemory (Some [Some (Addr 1%positive); Some (Addr 2%positive); None])
             2 3]} ∅ [])
    !! 1%positive
    = Some (mkCodeMemory
              (Some [Some (Addr 1%positive); Some (Addr 2%positive); None]) 2 3) /\
  stored_patterns
    (mkCodeMemory (Some [Some (Addr 1%positive); Some (Addr 2%positive); None]) 2 3)
    = Done [Addr 1%positive; Addr 2%positive] /\
  NoDup [Addr 1%positive; Addr 2%positive] /\
  Forall
    (live_pattern
       (mkWorld
          {[1%positive := mkCodePattern (Some "a") (Some "C") 1%float;
            2%positive := mkCodePattern (Some "b") (Some "C") 2%float;
            3%positive := mkCodePattern (Some "c") (Some "C") 3%float]}
          {[1%positive :=
              mkCodeMemory
                (Some [Some (Addr 1%positive); Some (Addr 2%positive); None]) 2 3]}
          ∅ []))
    [Addr 1%positive; Addr 2%positive] /\
  exists w',
    free_code_memory (Addr 1%positive)
      (mkWorld
         {[1%positive := mkCodePattern (Some "a") (Some "C") 1%float;
           2%positive := mkCodePattern (Some "b") (Some "C") 2%float;
           3%positive := mkCodePattern (Some "c") (Some "C") 3%float]}
         {[1%positive :=
             mkCodeMemory
               (Some [Some (Addr 1%positive); Some (Addr 2%positive); None]) 2 3]}
         ∅ [])
      = Done (tt, w') /\
    memory_objs w' =
      delete 1%positive
        {[1%positive :=
            mkCodeMemory
              (Some [Some (Addr 1%positive); Some (Addr 2%positive); None]) 2 3]} /\
    (forall l', pattern_objs w' !! l' =
                if decide (Addr l' ∈ [Addr 1%positive; Addr 2%positive]) then None
                else ({[1%positive := mkCodePattern (Some "a") (Some "C") 1%float;
                        2%positive := mkCodePattern (Some "b") (Some "C") 2%float;
                        3%positive := mkCodePattern (Some "c") (Some "C") 3%float]}
                        : gmap loc CodePattern) !! l') /\
    workbench_objs w' = ∅.
Proof.
  assert (NoDup [Addr 1%positive; Addr 2%positive]) as Hnd.
  { apply NoDup_cons. split; [|apply NoDup_singleton].
    intros [=]%list_elem_of_singleton. }
  assert (Forall
    (live_pattern
       (mkWorld
          {[1%positive := mkCodePattern (Some "a") (Some "C") 1%float;
            2%positive := mkCodePattern (Some "b") (Some "C") 2%float;
            3%positive := mkCodePattern (Some "c") (Some "C") 3%float]}
          {[1%positive :=
              mkCodeMemory
                (Some [Some (Addr 1%positive); Some (Addr 2%positive); None]) 2 3]}
          ∅ []))
    [Addr 1%positive; Addr 2%positive]) as Hlive.
  { repeat constructor; eexists; (split; [reflexivity|]); by eexists. }
  split; [reflexivity|]. split; [reflexivity|]. split; [exact Hnd|].
  split; [exact Hlive|].
  match type of Hlive with
  | Forall (live_pattern ?W) ?PS =>
      exact (X13_free_code_memory_releases_store_and_patterns W 1%positive
               (mkCodeMemory
                  (Some [Some (Addr 1%positive); Some (Addr 2%positive); None]) 2 3)
               PS eq_refl eq_refl Hnd Hlive)
  end.
Defined.

Lemma X14_witness :
  memory_objs
    (mkWorld {[1%positive := mkCodePattern (Some "a") (Some "C") 1%float]}
       {[1%positive :=
           mkCodeMemory (Some [Some (Addr 1%positive); Some (Addr 1%positive)]) 2 2]}
       ∅ [])
    !! 1%positive
    = Some (mkCodeMemory (Some [Some (Addr 1%positive); Some (Addr 1%positive)]) 2 2) /\
  stored_patterns
    (mkCodeMemory (Some [Some (Addr 1%positive); Some (Addr 1%positive)]) 2 2)
    = Done [Addr 1%positive; Addr 1%positive] /\
  Forall
    (live_pattern
       (mkWorld {[1%positive := mkCodePattern (Some "a") (Some "C") 1%float]}
          {[1%positive :=
              mkCodeMemory (Some [Some (Addr 1%positive); Some (Addr 1%positive)])
                2 2]} ∅ []))
    [Addr 1%positive; Addr 1%positive] /\
  ~ NoDup [Addr 1%positive; Addr 1%positive] /\
  free_code_memory (Addr 1%positive)
    (mkWorld {[1%positive := mkCodePattern (Some "a") (Some "C") 1%float]}
       {[1%positive :=
           mkCodeMemory (Some [Some (Addr 1%positive); Some (Addr 1%positive)]) 2 2]}
       ∅ [])
  = Undefined DanglingPointer.
Proof.
  assert (~ NoDup [Addr 1%positive; Addr 1%positive]) as Hdup.
  { intros [Hin _]%NoDup_cons. apply Hin. by apply list_elem_of_singleton. }
  assert (Forall
    (live_pattern
       (mkWorld {[1%positive := mkCodePattern (Some "a") (Some "C") 1%float]}
          {[1%positive :=
              mkCodeMemory (Some [Some (Addr 1%positive); Some (Addr 1%positive)])
                2 2]} ∅ []))
    [Addr 1%positive; Addr 1%positive]) as Hlive.
  { repeat constructor; eexists; (split; [reflexivity|]); by eexists. }
  split; [reflexivity|]. split; [reflexivity|]. split; [exact Hlive|].
  split; [exact Hdup|].
  match type of Hlive with
  | Forall (live_pattern ?W) ?PS =>
      exact (X14_free_code_memory_double_frees_duplicates W 1%positive
               (mkCodeMemory
                  (Some [Some (Addr 1%positive); Some (Addr 1%positive)]) 2 2)
               PS eq_refl eq_refl Hlive Hdup)
  end.
Defined.

(** X15.  Add does not look at the pattern pointer it stores: on a
    properly allocated empty store, adding the null pointer or a pointer to
    no live pattern succeeds like any other Add, and the later teardown
    then frees that pointer, which is undefined (a null dereference for
    null, a use after free otherwise). *)
Theorem X15_add_accepts_a_bad_pointer_and_teardown_fails
    (w : world) (l : loc) (m : CodeMemory) (p : ptr) :
  memory_objs w !! l = Some m ->
  allocated m ->
  count m = 0 -> 1 <= capacity m ->
  ~ live_pattern w p ->
  exists w1,
    add_pattern_to_memory (Addr l) p w = Done (tt, w1) /\
    free_code_memory (Addr l) w1 =
      Undefined (match p with NULL => NullDereference | Addr _ => DanglingPointer end).
Proof.
  intros Hl Halloc Hc Hcap Hdead.
  destruct (add_pattern_to_memory_allocated w l m p Hl Halloc)
    as (m1 & Hadd & _ & _ & _ & Hst); [left; lia|].
  specialize (Hst [] (stored_patterns_empty m Hc)). cbn [app] in Hst.
  eexists. split; [exact Hadd|].
  rewrite (free_code_memory_frees_stored _ l m1 [p]);
    [|apply lookup_insert_eq|exact Hst].
  apply bind_undefined. rewrite free_patterns_cons. apply bind_undefined.
  destruct p as [|pl]; [reflexivity|].
  apply free_code_pattern_released. cbn [pattern_objs set_memory_objs].
  destruct (pattern_objs w !! pl) as [v|] eqn:Hv; [|reflexivity].
  exfalso. apply Hdead. exists pl. split; [reflexivity|by eexists].
Qed.

Lemma X15_witness :
  memory_objs (mkWorld ∅ {[1%positive := mkCodeMemory (Some [None; None]) 0 2]} ∅ [])
    !! 1%positive = Some (mkCodeMemory (Some [None; None]) 0 2) /\
  allocated (mkCodeMemory (Some [None; None]) 0 2) /\
  count (mkCodeMemory (Some [None; None]) 0 2) = 0 /\
  1 <= capacity (mkCodeMemory (Some [None; None]) 0 2) /\
  ~ live_pattern
      (mkWorld ∅ {[1%positive := mkCodeMemory (Some [None; None]) 0 2]} ∅ []) NULL /\
  exists w1,
    add_pattern_to_memory (Addr 1%positive) NULL
      (mkWorld ∅ {[1%positive := mkCodeMemory (Some [None; None]) 0 2]} ∅ [])
      = Done (tt, w1) /\
    free_code_memory (Addr 1%positive) w1 = Undefined NullDereference.
Proof.
  assert (allocated (mkCodeMemory (Some [None; None]) 0 2)) as Halloc.
  { eexists. split; [reflexivity|]. cbn. unfold INT_MAX. lia. }
  assert (~ live_pattern
      (mkWorld ∅ {[1%positive := mkCodeMemory (Some [None; None]) 0 2]} ∅ []) NULL)
    as Hdead by (by intros (ql & Hq & _)).
  split; [reflexivity|]. split; [exact Halloc|]. split; [reflexivity|].
  split; [cbn; lia|]. split; [exact Hdead|].
  match type of Hdead with
  | ~ live_pattern ?W _ =>
      exact (X15_add_accepts_a_bad_pointer_and_teardown_fails W 1%positive
               (mkCodeMemory (Some [None; None]) 0 2) NULL
               eq_refl Halloc eq_refl ltac:(cbn; lia) Hdead)
  end.
Defined.

(** ** How far the array grows *)

(** X16.  The doubling never over-allocates by more than a factor of two:
    after any sequence of Adds on a properly allocated store of capacity at
    least 1 (every doubling within the [int] range), the capacity is at
    least the count and at most the larger of the initial capacity and
    [2 * (count - 1)].  So once the store has outgrown its initial
    capacity, more than half of the array is in use. *)
Theorem X16_capacity_stays_below_twice_the_count
    (ps : list ptr) (w : world) (l : loc) (m : CodeMemory) :
  memory_objs w !! l = Some m ->
  allocated m ->
  1 <= capacity m ->
  2 * (count m + Z.of_nat (length ps) - 1) <= INT_MAX ->
  exists m',
    adds (Addr l) ps w = Done (tt, set_memory_objs (insert l m') w) /\
    count m' = count m + Z.of_nat (length ps) /\
    count m' <= capacity m' /\
    capacity m' <= Z.max (capacity m) (2 * (count m' - 1)).
Proof.
  revert w m. induction ps as [|p ps IH]; intros w m Hl Halloc Hcap Hmax.
  - exists m. unfold adds. cbn [map length]. rewrite run_nil.
    rewrite set_memory_objs_insert_id by done.
    destruct Halloc as (b & _ & Hc & _). repeat split; lia.
  - cbn [length] in Hmax |- *.
    assert (0 <= count m <= capacity m) as Hc.
    { destruct Halloc as (b & _ & Hc & _). exact Hc. }
    destruct (add_pattern_to_memory_allocated w l m p Hl Halloc)
      as (m1 & Hadd & Halloc1 & Hc1 & Hcap1 & _).
    { destruct (decide (count m = capacity m)); [right|left]; lia. }
    destruct (IH (set_memory_objs (insert l m1) w) m1)
      as (m' & Hadds & Hc' & Hle & Hbound).
    + cbn. apply lookup_insert_eq.
    + exact Halloc1.
    + rewrite Hcap1. case_decide; lia.
    + rewrite Hc1. lia.
    + exists m'. rewrite adds_cons, (bind_done _ _ _ _ _ Hadd), Hadds.
      rewrite set_memory_objs_insert_insert.
      split; [reflexivity|]. split; [lia|]. split; [exact Hle|].
      rewrite Hcap1 in Hbound. case_decide; lia.
Qed.

Lemma X16_witness :
  memory_objs (mkWorld ∅ {[1%positive := mkCodeMemory (Some [None; None]) 0 2]} ∅ [])
    !! 1%positive = Some (mkCodeMemory (Some [None; None]) 0 2) /\
  allocated (mkCodeMemory (Some [None; None]) 0 2) /\
  1 <= capacity (mkCodeMemory (Some [None; None]) 0 2) /\
  2 * (count (mkCodeMemory (Some [None; None]) 0 2) +
       Z.of_nat (length (replicate 5 (Addr 1%positive))) - 1) <= INT_MAX /\
  exists m',
    adds (Addr 1%positive) (replicate 5 (Addr 1%positive))
      (mkWorld ∅ {[1%positive := mkCodeMemory (Some [None; None]) 0 2]} ∅ [])
    = Done (tt, set_memory_objs (insert 1%positive m')
                  (mkWorld ∅ {[1%positive := mkCodeMemory (Some [None; None]) 0 2]}
                     ∅ [])) /\
    count m' = 0 + Z.of_nat (length (replicate 5 (Addr 1%positive))) /\
    count m' <= capacity m' /\
    capacity m' <= Z.max 2 (2 * (count m' - 1)).
Proof.
  assert (allocated (mkCodeMemory (Some [None; None]) 0 2)) as Halloc.
  { eexists. split; [reflexivity|]. cbn. unfold INT_MAX. lia. }
  split; [reflexivity|]. split; [exact Halloc|]. split; [cbn; lia|].
  split; [cbn; unfold INT_MAX; lia|].
  exact (X16_capacity_stays_below_twice_the_count (replicate 5 (Addr 1%positive))
           (mkWorld ∅ {[1%positive := mkCodeMemory (Some [None; None]) 0 2]} ∅ [])
           1%positive (mkCodeMemory (Some [None; None]) 0 2)
           eq_refl Halloc ltac:(cbn; lia) ltac:(cbn; unfold INT_MAX; lia)).
Defined.

(** X17.  Whenever [add_pattern_to_memory] returns, it has changed the
    given store and nothing else: the patterns, the workbenches, the other
    stores and the output are as before; the count has gone up by one; the
    slot at the old count holds the very pointer that was passed (the
    pattern is not copied, the store and the caller share it); and the
    capacity is either unchanged or, if the store was full, doubled. *)
Theorem X17_add_changes_only_the_given_store
    (w w' : world) (l : loc) (p : ptr) :
  add_pattern_to_memory (Addr l) p w = Done (tt, w') ->
  exists m m',
    memory_objs w !! l = Some m /\
    w' = set_memory_objs (insert l m') w /\
    count m' = count m + 1 /\
    read_slot (patterns m') (count m) = Done p /\
    (capacity m' = capacity m /\ count m <> capacity m \/
     capacity m' = 2 * capacity m /\ count m = capacity m).
Proof.
  intros H. unfold add_pattern_to_memory in H.
  apply bind_inv in H as (m & w0 & Hload & H).
  unfold load_memory, deref in Hload.
  destruct (memory_objs w !! l) as [m0|] eqn:Hl; [|discriminate].
  revert Hload. intros [= -> ->].
  apply bind_inv in H as (m1 & w1 & Hgrow & H).
  apply bind_inv in H as (buf & w2 & Hwrite & H).
  apply bind_inv in H as (cnt & w3 & Hinc & H).
  unfold lift in Hwrite.
  destruct (write_slot (patterns m1) (count m1) p) as [buf'|] eqn:Hws;
    [|discriminate].
  revert Hwrite. intros [= -> ->].
  unfold int_add in Hinc. case_decide as Hrange; [|discriminate].
  revert Hinc. intros [= <- <-].
  unfold write_slot in Hws.
  destruct (patterns m1) as [b|] eqn:Hb; [|discriminate].
  case_decide as Hidx; [|discriminate]. revert Hws. intros [= <-].
  assert (w2 = w0 /\ count m1 = count m /\
          (capacity m1 = capacity m /\ count m <> capacity m \/
           capacity m1 = 2 * capacity m /\ count m = capacity m))
    as (-> & Hcnt & Hcapm).
  { case_decide as Hfull.
    - apply bind_inv in Hgrow as (cap & w4 & Hmul & Hret).
      unfold int_mul in Hmul. case_decide; [|discriminate].
      revert Hmul. intros [= <- <-]. revert Hret. intros [= <- <-].
      cbn. split; [reflexivity|]. split; [reflexivity|]. right. lia.
    - revert Hgrow. intros [= <- <-]. repeat split. by left. }
  rewrite Hcnt in *.
  exists m. eexists. split; [reflexivity|].
  rewrite (store_memory_live w0 l m _ Hl) in H. revert H. intros [= <-].
  split; [reflexivity|]. cbn [count capacity patterns].
  split; [reflexivity|]. split; [|exact Hcapm].
  unfold read_slot. rewrite decide_True by lia.
  rewrite list_lookup_insert_eq by lia. reflexivity.
Qed.

Lemma X17_witness :
  add_pattern_to_memory (Addr 1%positive) (Addr 7%positive)
    (mkWorld ∅ {[1%positive := mkCodeMemory (Some [Some (Addr 3%positive)]) 1 1]} ∅ [])
  = Done (tt, mkWorld ∅
                {[1%positive :=
                    mkCodeMemory (Some [Some (Addr 3%positive); Some (Addr 7%positive)])
                      2 2]} ∅ []) /\
  exists m m',
    memory_objs
      (mkWorld ∅ {[1%positive := mkCodeMemory (Some [Some (Addr 3%positive)]) 1 1]}
         ∅ [])
      !! 1%positive = Some m /\
    mkWorld ∅
      {[1%positive :=
          mkCodeMemory (Some [Some (Addr 3%positive); Some (Addr 7%positive)]) 2 2]}
      ∅ []
    = set_memory_objs (insert 1%positive m')
        (mkWorld ∅ {[1%positive := mkCodeMemory (Some [Some (Addr 3%positive)]) 1 1]}
           ∅ []) /\
    count m' = count m + 1 /\
    read_slot (patterns m') (count m) = Done (Addr 7%positive) /\
    (capacity m' = capacity m /\ count m <> capacity m \/
     capacity m' = 2 * capacity m /\ count m = capacity m).
Proof.
  assert (add_pattern_to_memory (Addr 1%positive) (Addr 7%positive)
    (mkWorld ∅ {[1%positive := mkCodeMemory (Some [Some (Addr 3%positive)]) 1 1]} ∅ [])
  = Done (tt, mkWorld ∅
                {[1%positive :=
                    mkCodeMemory (Some [Some (Addr 3%positive); Some (Addr 7%positive)])
                      2 2]} ∅ [])) as Hrun by (vm_compute; reflexivity).
  split; [exact Hrun|].
  exact (X17_add_changes_only_the_given_store _ _ 1%positive (Addr 7%positive) Hrun).
Defined.

(** * Ingestion and teardown together *)

Lemma ingest_cons memory spec specs w :
  ingest memory (spec :: specs) w =
  bind (let* pattern :=
          create_code_pattern (fst (fst spec)) (snd (fst spec)) (snd spec) in
        add_pattern_to_memory memory pattern)
       (fun _ => ingest memory specs) w.
Proof. reflexivity. Qed.

(** Creating patterns and adding them: the store then holds, after what it
    held, one new live pattern per entry, all distinct and none of them a
    pattern that existed before. *)
Lemma ingest_allocated specs : forall w l m old,
  memory_objs w !! l = Some m ->
  allocated m ->
  1 <= capacity m ->
  2 * (count m + Z.of_nat (length specs) - 1) <= INT_MAX ->
  stored_patterns m = Done old ->
  exists w' m' ps,
    ingest (Addr l) specs w = Done (tt, w') /\
    memory_objs w' = <[l := m']> (memory_objs w) /\
    workbench_objs w' = workbench_objs w /\
    stored_patterns m' = Done (old ++ ps) /\
    length ps = length specs /\
    NoDup ps /\
    Forall (fun p => exists pl, p = Addr pl /\ pattern_objs w !! pl = None /\
                                is_Some (pattern_objs w' !! pl)) ps /\
    (forall l', Addr l' ∉ ps -> pattern_objs w' !! l' = pattern_objs w !! l').
Proof.
  induction specs as [|spec specs IH]; intros w l m old Hl Halloc Hcap Hmax Hold.
  - exists w, m, []. split; [reflexivity|].
    split; [by rewrite insert_id|]. split; [reflexivity|].
    split; [by rewrite app_nil_r|]. split; [reflexivity|].
    split; [constructor|]. split; [constructor|]. done.
  - cbn [length] in Hmax.
    assert (0 <= count m <= capacity m) as Hc.
    { destruct Halloc as (b & _ & Hc & _). exact Hc. }
    set (pl := fresh (dom (pattern_objs w))).
    assert (pattern_objs w !! pl = None) as Hfresh
      by apply not_elem_of_dom, is_fresh.
    set (v := mkCodePattern (Some (fst (fst spec))) (Some (snd (fst spec)))
                (snd spec)).
    set (w1 := set_pattern_objs (insert pl v) w).
    destruct (add_pattern_to_memory_allocated w1 l m (Addr pl) Hl Halloc)
      as (m1 & Hadd & Halloc1 & Hc1 & Hcap1 & Hst1).
    { destruct (decide (count m = capacity m)); [right|left]; lia. }
    destruct (IH (set_memory_objs (insert l m1) w1) l m1 (old ++ [Addr pl]))
      as (w' & m' & ps & Hrun & Hm & Hwb & Hst & Hlen & Hnd & Hnew & Hframe).
    + apply lookup_insert_eq.
    + exact Halloc1.
    + rewrite Hcap1. case_decide; lia.
    + rewrite Hc1. lia.
    + by apply Hst1.
    + cbn [memory_objs workbench_objs pattern_objs set_memory_objs set_pattern_objs
           w1] in Hm, Hwb, Hnew, Hframe.
      assert (Addr pl ∉ ps) as Hpl.
      { intros Hin. rewrite Forall_forall in Hnew.
        destruct (Hnew _ Hin) as (ql & [= <-] & Hnone & _).
        by rewrite lookup_insert_eq in Hnone. }
      exists w', m', (Addr pl :: ps).
      rewrite ingest_cons.
      assert ((let* pattern :=
                 create_code_pattern (fst (fst spec)) (snd (fst spec)) (snd spec) in
               add_pattern_to_memory (Addr l) pattern) w
              = Done (tt, set_memory_objs (insert l m1) w1)) as Hstep.
      { erewrite bind_done by reflexivity. exact Hadd. }
      rewrite (bind_done _ _ _ _ _ Hstep).
      split; [exact Hrun|].
      split; [by rewrite Hm, insert_insert_eq|]. split; [exact Hwb|].
      split; [by rewrite Hst, <- app_assoc|].
      split; [cbn; lia|]. split; [by apply NoDup_cons|].
      split.
      * apply Forall_cons. split.
        -- exists pl. split; [reflexivity|]. split; [exact Hfresh|].
           rewrite (Hframe pl Hpl), lookup_insert_eq. by eexists.
        -- eapply Forall_impl; [exact Hnew|].
           intros q (ql & -> & Hnone & Hlive). exists ql.
           split; [reflexivity|]. split; [|exact Hlive].
           destruct (decide (pl = ql)) as [->|Hne].
           ++ by rewrite lookup_insert_eq in Hnone.
           ++ by rewrite lookup_insert_ne in Hnone.
      * intros l' Hnin. rewrite Hframe.
        -- rewrite lookup_insert_ne; [reflexivity|].
           intros ->. apply Hnin. by left.
        -- intros Hin. apply Hnin. by right.
Qed.

(** X19.  Ownership round trip: create any number of patterns, add each to
    a properly allocated empty store (capacity at least 1, doublings within
    the [int] range), then tear the store down with [free_code_memory].
    Everything succeeds, and afterwards the heap of patterns is exactly
    what it was before the ingestion: every pattern the store was given has
    been released once, and no pattern that existed before was touched.
    The store itself is gone, the workbenches are as before. *)
Theorem X19_ingest_then_free_restores_the_pattern_heap
    (specs : list (string * string * float)) (w : world) (l : loc)
    (m : CodeMemory) :
  memory_objs w !! l = Some m ->
  allocated m ->
  count m = 0 -> 1 <= capacity m ->
  2 * (Z.of_nat (length specs) - 1) <= INT_MAX ->
  exists w1 w2,
    ingest (Addr l) specs w = Done (tt, w1) /\
    free_code_memory (Addr l) w1 = Done (tt, w2) /\
    pattern_objs w2 = pattern_objs w /\
    memory_objs w2 = delete l (memory_objs w) /\
    workbench_objs w2 = workbench_objs w.
Proof.
  intros Hl Halloc Hc Hcap Hmax.
  destruct (ingest_allocated specs w l m [] Hl Halloc Hcap)
    as (w1 & m1 & ps & Hrun & Hm & Hwb & Hst & _ & Hnd & Hnew & Hframe);
    [lia|by apply stored_patterns_empty|].
  cbn [app] in Hst.
  assert (memory_objs w1 !! l = Some m1) as Hl1
    by (rewrite Hm; apply lookup_insert_eq).
  destruct (free_patterns_ok ps w1 Hnd) as (w2 & Hfree & Hlook & Hm2 & Hwb2).
  { eapply Forall_impl; [exact Hnew|].
    intros q (ql & -> & _ & Hlive). by exists ql. }
  exists w1. eexists. split; [exact Hrun|].
  rewrite (free_code_memory_frees_stored w1 l m1 ps Hl1 Hst).
  rewrite (bind_done _ _ _ _ _ Hfree).
  unfold free_obj. rewrite Hm2, Hl1. split; [reflexivity|].
  cbn [pattern_objs memory_objs workbench_objs set_memory_objs].
  split; [|split; [by rewrite Hm2, Hm, delete_insert_eq|congruence]].
  apply map_eq. intros l'. rewrite Hlook.
  destruct (decide (Addr l' ∈ ps)) as [Hin|Hnin].
  - rewrite Forall_forall in Hnew.
    destruct (Hnew _ Hin) as (ql & [= <-] & Hnone & _). by rewrite Hnone.
  - by apply Hframe.
Qed.

Lemma X19_witness :
  memory_objs
    (mkWorld {[1%positive := mkCodePattern (Some "old") (Some "C") 1%float]}
       {[1%positive := mkCodeMemory (Some [None]) 0 1]} ∅ [])
    !! 1%positive = Some (mkCodeMemory (Some [None]) 0 1) /\
  allocated (mkCodeMemory (Some [None]) 0 1) /\
  count (mkCodeMemory (Some [None]) 0 1) = 0 /\
  1 <= capacity (mkCodeMemory (Some [None]) 0 1) /\
  2 * (Z.of_nat (length [("a", "C", 1%float); ("b", "Rust", 2%float);
                         ("a", "C", 1%float)]) - 1) <= INT_MAX /\
  exists w1 w2,
    ingest (Addr 1%positive)
      [("a", "C", 1%float); ("b", "Rust", 2%float); ("a", "C", 1%float)]
      (mkWorld {[1%positive := mkCodePattern (Some "old") (Some "C") 1%float]}
         {[1%positive := mkCodeMemory (Some [None]) 0 1]} ∅ [])
      = Done (tt, w1) /\
    free_code_memory (Addr 1%positive) w1 = Done (tt, w2) /\
    pattern_objs w2 = {[1%positive := mkCodePattern (Some "old") (Some "C") 1%float]} /\
    memory_objs w2 =
      delete 1%positive {[1%positive := mkCodeMemory (Some [None]) 0 1]} /\
    workbench_objs w2 = ∅.
Proof.
  assert (allocated (mkCodeMemory (Some [None]) 0 1)) as Halloc.
  { eexists. split; [reflexivity|]. cbn. unfold INT_MAX. lia. }
  split; [reflexivity|]. split; [exact Halloc|]. split; [reflexivity|].
  split; [cbn; lia|]. split; [cbn; unfold INT_MAX; lia|].
  exact (X19_ingest_then_free_restores_the_pattern_heap
           [("a", "C", 1%float); ("b", "Rust", 2%float); ("a", "C", 1%float)]
           (mkWorld {[1%positive := mkCodePattern (Some "old") (Some "C") 1%float]}
              {[1%positive := mkCodeMemory (Some [None]) 0 1]} ∅ [])
           1%positive (mkCodeMemory (Some [None]) 0 1)
           eq_refl Halloc eq_refl ltac:(cbn; lia) ltac:(cbn; unfold INT_MAX; lia)).
Defined.

(** * The verification message *)

Lemma substring_length (s : string) : forall n,
  String.length (substring 0 n s) = Nat.min n (String.length s).
Proof.
  induction s as [|c s IH]; intros [|n]; simpl; try reflexivity.
  by rewrite IH.
Qed.

Lemma substring_is_prefix (s : string) : forall n,
  exists rest, s = substring 0 n s +:+ rest.
Proof.
  induction s as [|c s IH]; intros [|n].
  - by exists EmptyString.
  - by exists EmptyString.
  - by exists (String c s).
  - destruct (IH n) as (rest & Hrest). exists rest.
    change (String c s = String c (substring 0 n s +:+ rest)).
    by rewrite <- Hrest.
Qed.

Lemma substring_whole (s : string) : forall n,
  (String.length s <= n)%nat -> substring 0 n s = s.
Proof.
  induction s as [|c s IH]; intros [|n] Hn; simpl in *; try reflexivity; try lia.
  rewrite IH by lia. reflexivity.
Qed.

(** X20.  [verify_code_from_blockchain] never writes past its buffer: for
    a buffer of [size >= 1] bytes the text it leaves is a prefix of the
    29-character message, of [min (size - 1) 29] characters, so that text
    and terminator fit in [size] bytes; from 30 bytes on the message is
    complete, below that it is cut short. *)
Theorem X20_verify_fits_the_buffer (size : nat) :
  (1 <= size)%nat ->
  String.length (verify_code_from_blockchain size)
    = Nat.min (size - 1) 29 /\
  (String.length (verify_code_from_blockchain size) + 1 <= size)%nat /\
  (exists rest, verify_message = verify_code_from_blockchain size +:+ rest) /\
  ((30 <= size)%nat -> verify_code_from_blockchain size = verify_message) /\
  ((size < 30)%nat -> verify_code_from_blockchain size <> verify_message).
Proof.
  intros Hsize. unfold verify_code_from_blockchain.
  change "Code verified from blockchain" with verify_message.
  assert (String.length verify_message = 29%nat) as Hlen by reflexivity.
  rewrite substring_length, Hlen.
  split; [reflexivity|]. split; [lia|].
  split; [apply substring_is_prefix|].
  split.
  - intros Hbig. apply substring_whole. lia.
  - intros Hsmall Heq. apply (f_equal String.length) in Heq.
    rewrite substring_length, Hlen in Heq. lia.
Qed.

Lemma X20_witness :
  (1 <= 5)%nat /\
  String.length (verify_code_from_blockchain 5) = Nat.min (5 - 1) 29 /\
  (String.length (verify_code_from_blockchain 5) + 1 <= 5)%nat /\
  (exists rest, verify_message = verify_code_from_blockchain 5 +:+ rest) /\
  ((30 <= 5)%nat -> verify_code_from_blockchain 5 = verify_message) /\
  ((5 < 30)%nat -> verify_code_from_blockchain 5 <> verify_message).
Proof.
  split; [lia|].
  exact (X20_verify_fits_the_buffer 5 ltac:(lia)).
Defined.
